(** * drfc_manager.utils.minio.utilities: the object-storage upload facade

    A shallow embedding of [src/drfc_manager/utils/minio/utilities.py].

    The module is glue over a storage client: every function builds a key,
    calls one or two methods of the client inside a [try], maps the result to
    a [bool] and maps what is raised to [FileUploadException].  The embedding
    keeps that shape:

    - the client is an interface ([MinioClient]) over an arbitrary client
      state; its methods return or raise and may change that state;
    - the functions of the module live in a state-and-exception monad [M]
      over a [World]: the client's state and the list of the calls made on
      the client so far, which is what the statements about "the call that
      is issued" speak about;
    - [try ... except MinioException ... except Exception as e ...] is
      [try_except] with the two clauses as a handler on the exception value;
      an exception that no clause names leaves the [try] as it came. *)

From Stdlib Require Import ZArith List Ascii String Strings.Byte Bool Lia.
From Stdlib Require Import Decimal DecimalString DecimalFacts DecimalPos DecimalN DecimalZ.
From stdpp Require Import base option list strings gmap.

Local Open Scope string_scope.

(** String concatenation computes on literals. *)
#[local] Arguments String.append !_ _ / : simpl nomatch.

(** ** Python values that cross the interface *)

(** [bytes]: an immutable byte string; [len] is [length]. *)
Definition bytes := list byte.

(** An open [io.BytesIO]: an in-memory stream, the bytes it holds and the
    position of the next read.  [io.BytesIO(b)] is open and starts at
    position 0; [buf.getbuffer().nbytes] is the size of the whole content,
    whatever the position. *)
Record BytesIO := mkBytesIO { getvalue : bytes; tell : nat }.

Definition io_BytesIO (initial_bytes : bytes) : BytesIO :=
  {| getvalue := initial_bytes; tell := 0 |}.

Definition getbuffer_nbytes (b : BytesIO) : nat := length (getvalue b).

(** [stream.read(n)]: at most [n] bytes, from the position on. *)
Definition stream_read (b : BytesIO) (n : nat) : bytes :=
  take n (drop (tell b) (getvalue b)).

(** An [io.BytesIO] object as a caller hands it over: open, or closed.
    [close()] discards the content, and every operation on the closed
    object, [getbuffer()] among them, raises [ValueError]. *)
Inductive Buffer : Type :=
| open_buffer (stream : BytesIO)
| closed_buffer.

Coercion open_buffer : BytesIO >-> Buffer.

(** Formatting inside an f-string of a value that is a [str] or [None]:
    [f'{None}'] is the text [None]. *)
Definition format_value (v : option string) : string :=
  match v with
  | Some s => s
  | None => "None"
  end.

(** ** Exceptions *)

(** Modelled from the spec: the class [FileUploadException]
    ([drfc_manager.utils.minio.exceptions.file_upload_exception], not among
    the sources), the single error kind the module raises, "carrying either
    a human-readable message naming the failed operation and object key, or
    a wrapped arbitrary underlying error"; the module builds it with
    [message=...] or with [original_exception=...].

    The other two constructors are the classes the [except] clauses tell
    apart in what the [try] bodies raise: [MinioException] is minio's base
    class ([S3Error], [ServerError], [InvalidResponseError] derive from it),
    [OtherException] is any other class derived from [Exception].  [cls] is
    the name of the concrete class, [msg] its text.  [BaseExceptionOnly]
    is a class derived from [BaseException] and not from [Exception]:
    [KeyboardInterrupt], [SystemExit], [GeneratorExit]. *)
#[warnings="-register-all"]
Inductive PyExc : Type :=
| MinioException (cls msg : string)
| OtherException (cls msg : string)
| FileUploadException (message : option string) (original_exception : option PyExc)
| BaseExceptionOnly (cls msg : string).

(** [isinstance(e, Exception)]. *)
Definition isinstance_Exception (e : PyExc) : bool :=
  match e with
  | BaseExceptionOnly _ _ => false
  | _ => true
  end.

Definition isinstance_MinioException (e : PyExc) : bool :=
  match e with
  | MinioException _ _ => true
  | _ => false
  end.

Definition isinstance_FileUploadException (e : PyExc) : bool :=
  match e with
  | FileUploadException _ _ => true
  | _ => false
  end.

(** What a call comes back with: a value, or an exception in flight. *)
Inductive Outcome (A : Type) : Type :=
| Return (a : A)
| Raise (e : PyExc).
Arguments Return {A} a.
Arguments Raise {A} e.

Definition returned {A} (o : Outcome A) : option A :=
  match o with
  | Return a => Some a
  | Raise _ => None
  end.

Definition raised {A} (o : Outcome A) : option PyExc :=
  match o with
  | Return _ => None
  | Raise e => Some e
  end.

(** ** The storage client *)

(** [minio.helpers.ObjectWriteResult], what [put_object], [fput_object] and
    [copy_object] return.  The class defines neither [__bool__] nor
    [__len__]: an instance is always true. *)
Record ObjectWriteResult := mkObjectWriteResult {
  owr_bucket_name : option string;
  owr_object_name : string;
  owr_etag : string
}.

(** [minio.datatypes.Object], an entry of a listing or the answer of
    [stat_object]. *)
Record Object := mkObject {
  obj_object_name : string;
  obj_size : nat
}.

(** [minio.commonconfig.CopySource(bucket_name, object_name)]. *)
Record CopySource := mkCopySource {
  cs_bucket_name : option string;
  cs_object_name : string
}.

(** [minio.deleteobjects.DeleteObject(name)]. *)
Record DeleteObject := mkDeleteObject { do_name : string }.

(** [minio.deleteobjects.DeleteError], one per key that could not be
    deleted. *)
Record DeleteError := mkDeleteError {
  de_code : string;
  de_name : string
}.

(** The methods of the client the module uses.  Each takes the client's
    state and gives the outcome and the next state.  [put_object] and
    [fput_object] give "a result object or [None]". *)
Class MinioClient (S : Type) := {
  client_put_object :
    option string -> string -> BytesIO -> nat -> string ->
    S -> Outcome (option ObjectWriteResult) * S;
  client_fput_object :
    option string -> string -> string ->
    S -> Outcome (option ObjectWriteResult) * S;
  client_stat_object :
    option string -> string -> S -> Outcome Object * S;
  client_copy_object :
    option string -> string -> CopySource ->
    S -> Outcome ObjectWriteResult * S;
  client_list_objects :
    option string -> string -> S -> Outcome (list Object) * S;
  client_remove_objects :
    option string -> list DeleteObject -> S -> Outcome (list DeleteError) * S
}.

(** A call on the client, with its arguments as they were passed. *)
Inductive Call : Type :=
| PutObject (bucket_name : option string) (key : string) (data : BytesIO)
            (length : nat) (content_type : string)
| FputObject (bucket_name : option string) (key : string) (file_path : string)
| StatObject (bucket_name : option string) (key : string)
| CopyObject (bucket_name : option string) (key : string) (source : CopySource)
| ListObjects (bucket_name : option string) (prefix : string)
| RemoveObjects (bucket_name : option string) (delete_object_list : list DeleteObject).

Definition call_bucket (c : Call) : option string :=
  match c with
  | PutObject b _ _ _ _ => b
  | FputObject b _ _ => b
  | StatObject b _ => b
  | CopyObject b _ _ => b
  | ListObjects b _ => b
  | RemoveObjects b _ => b
  end.

(** ** The monad of the module's functions *)

(** One entry of the record of calls: the call and, when the client raised
    instead of returning, what it raised. *)
Record Event := mkEvent {
  ev_call : Call;
  ev_raised : option PyExc
}.

(** The process as the module sees it: the client, the environment
    variables, and the calls made on the client so far. *)
Record World (S : Type) := mkWorld {
  client : S;
  environ : gmap string string;
  events : list Event
}.
Arguments mkWorld {S} _ _ _.
Arguments client {S} _.
Arguments environ {S} _.
Arguments events {S} _.

(** What was recorded between [w] and a later [w']. *)
Definition new_events {S} (w w' : World S) : list Event :=
  drop (length (events w)) (events w').

Definition M (S A : Type) : Type := World S -> Outcome A * World S.

#[global] Instance M_ret {S} : MRet (M S) :=
  fun A (a : A) w => (Return a, w).

#[global] Instance M_bind {S} : MBind (M S) :=
  fun A B (k : A -> M S B) (m : M S A) w =>
    match m w with
    | (Return a, w') => k a w'
    | (Raise e, w') => (Raise e, w')
    end.

Definition raise {S A} (e : PyExc) : M S A := fun w => (Raise e, w).

(** [try: body except ...: ...], the [except] clauses as one [handler] on
    what the body raised; a handler re-raises what no clause names. *)
Definition try_except {S A} (body : M S A) (handler : PyExc -> M S A) : M S A :=
  fun w =>
    match body w with
    | (Return a, w') => (Return a, w')
    | (Raise e, w') => handler e w'
    end.

(** A method call on the client: the call is recorded, then the client
    answers and moves to its next state. *)
Definition invoke {S A} (c : Call) (method : S -> Outcome A * S) : M S A :=
  fun w =>
    let (o, s') := method (client w) in
    (o, {| client := s';
           environ := environ w;
           events := events w ++ [mkEvent c (raised o)] |}).

Section Methods.
Context {S : Type} `{MinioClient S}.

Definition put_object (bucket_name : option string) (key : string)
    (data : BytesIO) (length : nat) (content_type : string)
  : M S (option ObjectWriteResult) :=
  invoke (PutObject bucket_name key data length content_type)
         (client_put_object bucket_name key data length content_type).

Definition fput_object (bucket_name : option string) (key file_path : string)
  : M S (option ObjectWriteResult) :=
  invoke (FputObject bucket_name key file_path)
         (client_fput_object bucket_name key file_path).

Definition stat_object (bucket_name : option string) (key : string)
  : M S Object :=
  invoke (StatObject bucket_name key) (client_stat_object bucket_name key).

Definition minio_copy_object (bucket_name : option string) (key : string)
    (source : CopySource) : M S ObjectWriteResult :=
  invoke (CopyObject bucket_name key source)
         (client_copy_object bucket_name key source).

Definition list_objects (bucket_name : option string) (prefix : string)
  : M S (list Object) :=
  invoke (ListObjects bucket_name prefix)
         (client_list_objects bucket_name prefix).

Definition remove_objects (bucket_name : option string)
    (delete_object_list : list DeleteObject) : M S (list DeleteError) :=
  invoke (RemoveObjects bucket_name delete_object_list)
         (client_remove_objects bucket_name delete_object_list).
End Methods.

(** [True if result else False] on "a result object or [None]". *)
Definition truth (result : option ObjectWriteResult) : bool :=
  match result with
  | Some _ => true
  | None => false
  end.

(** ** JSON: the values the records are made of, and [orjson]

    [dumps] is applied to the two records.  Their classes are declared
    outside this file; all the module asks of them is that [orjson.dumps]
    accepts them.  A record is a Python value of the types [orjson.dumps]
    writes natively that a record of parameters is made of: [None],
    [bool], [int], [float], [str], [list], [tuple], [dict] with [str]
    keys, an instance of a dataclass and a member of an [Enum], nested at
    will.  (Dates, UUIDs and arrays, which [orjson] also writes, are left
    out.)  A [str] is held as its UTF-8 text, which is what [orjson]
    writes for it. *)

(** A [float].  The module does no arithmetic: a float is only written.
    A finite one is held as the text [orjson] writes for it, the shortest
    decimal that reads back as the same double ([1.0], [0.0003], [1e-5]);
    [nan] and the two infinities have no text of their own. *)
Inductive PyFloatValue : Type :=
| NaN
| Infinity (negative : bool)
| Finite (written : string).

(** [PyDataclass cls fields]: an instance of the dataclass [cls], its
    attributes in the order of the class definition.  [PyEnum cls name
    value]: the member [cls.name], whose [.value] is [value]. *)
#[warnings="-register-all"]
Inductive PyValue : Type :=
| PyNone
| PyBool (b : bool)
| PyInt (n : Z)
| PyFloat (x : PyFloatValue)
| PyStr (s : string)
| PyList (items : list PyValue)
| PyTuple (items : list PyValue)
| PyDict (items : list (string * PyValue))
| PyDataclass (cls : string) (fields : list (string * PyValue))
| PyEnum (cls name : string) (value : PyValue).

Module orjson.

Definition OPT_INDENT_2 : N := 1.

(** *** Writing *)

Definition hex_digit (n : N) : ascii :=
  ascii_of_N (if (n <? 10)%N then 48 + n else 87 + n).

(** One character of a [str] inside the quotes: the quote, the backslash
    and the control characters are escaped, everything else is copied. *)
Definition escape_char (c : ascii) : string :=
  let n := N_of_ascii c in
  if (n =? 34)%N then String "\" (String "034" "")
  else if (n =? 92)%N then "\\"
  else if (n =? 8)%N then "\b"
  else if (n =? 9)%N then "\t"
  else if (n =? 10)%N then "\n"
  else if (n =? 12)%N then "\f"
  else if (n =? 13)%N then "\r"
  else if (n <? 32)%N then
    "\u00" +:+ String (hex_digit (n / 16)) (String (hex_digit (n mod 16)) "")
  else String c "".

Fixpoint escape (s : string) : string :=
  match s with
  | "" => ""
  | String c s' => escape_char c +:+ escape s'
  end.

Definition quote (s : string) : string :=
  String "034" (escape s +:+ String "034" "").

Definition string_of_Z (n : Z) : string :=
  DecimalString.NilZero.string_of_int (Z.to_int n).

Fixpoint spaces (n : nat) : string :=
  match n with
  | 0 => ""
  | S n' => String " " (spaces n')
  end.

(** With [OPT_INDENT_2] every item of a container is on a line of its own,
    two spaces deeper than the container. *)
Definition indent (pretty : bool) (depth : nat) : string :=
  if pretty then String "010" (spaces (2 * depth)) else "".

Definition colon (pretty : bool) : string :=
  if pretty then ": " else ":".

Fixpoint more_items (ind close : string) (l : list string) : string :=
  match l with
  | [] => close
  | s :: l' => "," +:+ ind +:+ s +:+ more_items ind close l'
  end.

Definition container (open_ close : ascii) (ind ind_close : string)
    (l : list string) : string :=
  match l with
  | [] => String open_ (String close "")
  | s :: l' =>
      String open_ (ind +:+ s +:+ more_items ind (ind_close +:+ String close "") l')
  end.

(** An attribute of a dataclass whose name starts with an underscore is
    not written. *)
Definition public (name : string) : bool :=
  match name with
  | String c _ => negb (c =? "_")%char
  | "" => true
  end.

(** A [tuple] is written as a [list] is, an instance of a dataclass as
    the [dict] of its attributes, a member of an [Enum] as its value, a
    float that is not finite as [null]. *)
Fixpoint render (pretty : bool) (depth : nat) (v : PyValue) : string :=
  match v with
  | PyNone => "null"
  | PyBool true => "true"
  | PyBool false => "false"
  | PyInt n => string_of_Z n
  | PyFloat (Finite written) => written
  | PyFloat _ => "null"
  | PyStr s => quote s
  | PyList items | PyTuple items =>
      container "[" "]" (indent pretty (S depth)) (indent pretty depth)
        (map (render pretty (S depth)) items)
  | PyDict items =>
      container "{" "}" (indent pretty (S depth)) (indent pretty depth)
        (map (fun kv => quote (fst kv) +:+ colon pretty +:+
                        render pretty (S depth) (snd kv)) items)
  | PyDataclass _ fields =>
      container "{" "}" (indent pretty (S depth)) (indent pretty depth)
        (omap (fun kv => if public (fst kv)
                         then Some (quote (fst kv) +:+ colon pretty +:+
                                    render pretty (S depth) (snd kv))
                         else None) fields)
  | PyEnum _ _ value => render pretty depth value
  end.

(** [dumps] raises [JSONEncodeError], which is [TypeError], on an [int]
    outside 64 bits and on containers nested too deep.  The depth is
    checked on entering a container that has items: one that is empty is
    written wherever it stands. *)
Definition RECURSION_LIMIT : nat := 254.

Definition int_in_range (n : Z) : bool :=
  ((- 2 ^ 63 <=? n) && (n <? 2 ^ 64))%Z.

(** The first error among the items, in the order they are written. *)
Definition first_error {A} (f : A -> option string) : list A -> option string :=
  fix go (l : list A) : option string :=
    match l with
    | [] => None
    | x :: l' =>
      match f x with
      | Some message => Some message
      | None => go l'
      end
    end.

(** The text of the error [dumps] raises, [None] when it raises none. *)
Fixpoint encode_error (depth : nat) (v : PyValue) : option string :=
  match v with
  | PyInt n =>
      if int_in_range n then None else Some "Integer exceeds 64-bit range"
  | PyList items | PyTuple items =>
      match items with
      | [] => None
      | _ :: _ =>
        if (depth <? RECURSION_LIMIT)%nat
        then first_error (encode_error (S depth)) items
        else Some "Recursion limit reached"
      end
  | PyDict items =>
      match items with
      | [] => None
      | _ :: _ =>
        if (depth <? RECURSION_LIMIT)%nat
        then first_error (fun kv => encode_error (S depth) (snd kv)) items
        else Some "Recursion limit reached"
      end
  | PyDataclass _ fields =>
      match fields with
      | [] => None
      | _ :: _ =>
        if (depth <? RECURSION_LIMIT)%nat
        then first_error (fun kv => if public (fst kv)
                                    then encode_error (S depth) (snd kv)
                                    else None) fields
        else Some "Recursion limit reached"
      end
  | PyEnum _ _ value => encode_error depth value
  | _ => None
  end.

Definition serializable (depth : nat) (v : PyValue) : bool :=
  match encode_error depth v with
  | None => true
  | Some _ => false
  end.

(** Of the option bits, [OPT_INDENT_2] is the one the module passes and the
    one that is modelled. *)
Definition dumps (obj : PyValue) (opt : N) : option bytes :=
  if serializable 0 obj
  then Some (list_byte_of_string (render (N.testbit opt 0) 0 obj))
  else None.

(** [str(e)] for the error [dumps obj] raises. *)
Definition error_text (obj : PyValue) : string :=
  match encode_error 0 obj with
  | Some message => message
  | None => ""
  end.

(** *** Reading

    [loads] follows the JSON grammar.  It is here to state what the
    uploaded body reads back as. *)
























Section Steps.
Variable value : string -> option (PyValue * string).
Variable elements : string -> option (list PyValue * string).
Variable members : string -> option (list (string * PyValue) * string).



End Steps.




(** *** The text of a value, piece by piece *)









End orjson.

(** Modelled from the spec: the record classes [HyperParameters] and
    [ModelMetadata] ([drfc_manager.types_built]), "an external structured
    value; this module's only requirement is that it is serializable to
    JSON".  A record is the value [orjson.dumps] is given, whatever its
    class. *)
Definition HyperParameters : Type := PyValue.

(** Modelled from the spec: [ModelMetadata], as [HyperParameters]. *)
Definition ModelMetadata : Type := PyValue.

(** ** Module state *)

(** [os.getenv(key)]: the value, or [None] when the variable is not set. *)
Definition os_getenv (env : gmap string string) (key : string)
  : option string :=
  env !! key.

(** The three module-level names, bound when the module is imported. *)
Record Globals := mkGlobals {
  _bucket_name : option string;
  _custom_files_folder : option string;
  _reward_function_path : option string
}.

Definition import_module {S} (w : World S) : Globals :=
  {| _bucket_name := os_getenv (environ w) "BUCKET_NAME";
     _custom_files_folder := os_getenv (environ w) "CUSTOM_FILES_FOLDER_PATH";
     _reward_function_path := os_getenv (environ w) "REWARD_FUNCTION_PATH" |}.

(** ** The functions of the module *)

Section Utilities.
Context {S : Type} `{MinioClient S}.
Variable g : Globals.

(** [dumps(obj, option=...)] as a statement: the bytes, or
    [orjson.JSONEncodeError], which is the class [TypeError]. *)
Definition dumps (obj : PyValue) (opt : N) : M S bytes :=
  match orjson.dumps obj opt with
  | Some b => mret b
  | None => raise (OtherException "TypeError" (orjson.error_text obj))
  end.

(** [buf.getbuffer()]: the content of an open buffer; [ValueError] on a
    closed one. *)
Definition getbuffer (buf : Buffer) : M S BytesIO :=
  match buf with
  | open_buffer stream => mret stream
  | closed_buffer =>
      raise (OtherException "ValueError" "I/O operation on closed file.")
  end.

(** The two clauses every function but [check_if_object_exists] ends with:
    [except MinioException: on_minio] then
    [except Exception as e: on_exception e].  An exception that is not
    an [Exception] matches neither and goes on. *)
Definition except_MinioException_Exception {A}
    (on_minio : M S A) (on_exception : PyExc -> M S A) (e : PyExc) : M S A :=
  if isinstance_MinioException e then on_minio
  else if isinstance_Exception e then on_exception e
  else raise e.

(** The clause of [check_if_object_exists]: [except Exception: on_exception]. *)
Definition except_Exception {A} (on_exception : M S A) (e : PyExc) : M S A :=
  if isinstance_Exception e then on_exception else raise e.

(** [object_name] is bound in the [try] after [dumps]; only the client
    raises [MinioException], so the first clause always finds it bound. *)
Definition upload_hyperparameters (hyperparameters : HyperParameters)
  : M S bool :=
  let object_name := "hyperparameters.json" in
  try_except
    (hyperparameters_serialized ← dumps hyperparameters orjson.OPT_INDENT_2;
     let object_size := length hyperparameters_serialized in
     result ← put_object
                (_bucket_name g)
                (format_value (_custom_files_folder g) +:+ "/" +:+ object_name)
                (io_BytesIO hyperparameters_serialized)
                object_size
                "application/json";
     mret (if truth result then true else false))
    (except_MinioException_Exception
       (raise (FileUploadException
                 (Some ("Error uploading " +:+ object_name +:+ " file to S3 bucket"))
                 None))
       (fun e => raise (FileUploadException None (Some e)))).

(** [object_name] is bound after [getbuffer()]; as above, the first
    clause always finds it bound.  The client is given the buffer itself,
    which is open once [getbuffer()] has returned. *)
Definition upload_reward_function (reward_function_buffer : Buffer)
  : M S bool :=
  let object_name := "reward_function.py" in
  try_except
    (stream ← getbuffer reward_function_buffer;
     let buffer_size := getbuffer_nbytes stream in
     result ← put_object
                (_bucket_name g)
                (format_value (_custom_files_folder g) +:+ "/" +:+ object_name)
                stream
                buffer_size
                "text/plain";
     mret (if truth result then true else false))
    (except_MinioException_Exception
       (raise (FileUploadException
                 (Some ("Error uploading " +:+ object_name +:+ "  file to S3 bucket"))
                 None))
       (fun e => raise (FileUploadException None (Some e)))).

Definition upload_metadata (model_metadata : ModelMetadata) : M S bool :=
  let object_name := "model_metadata.json" in
  try_except
    (model_metadata_serialized ← dumps model_metadata orjson.OPT_INDENT_2;
     let object_size := length model_metadata_serialized in
     result ← put_object
                (_bucket_name g)
                (format_value (_custom_files_folder g) +:+ "/" +:+ object_name)
                (io_BytesIO model_metadata_serialized)
                object_size
                "application/json";
     mret (if truth result then true else false))
    (except_MinioException_Exception
       (raise (FileUploadException
                 (Some ("Error uploading " +:+ object_name +:+ "  file to S3 bucket"))
                 None))
       (fun e => raise (FileUploadException None (Some e)))).

Definition upload_local_data (local_data_path : string) (object_name : string)
  : M S bool :=
  try_except
    (result ← fput_object (_bucket_name g) object_name local_data_path;
     mret (if truth result then true else false))
    (except_MinioException_Exception
       (raise (FileUploadException
                 (Some ("Error uploading " +:+ object_name +:+ "  file to S3 bucket"))
                 None))
       (fun e => raise (FileUploadException None (Some e)))).

Definition check_if_object_exists (object_name : string) : M S bool :=
  try_except
    (_ ← stat_object (_bucket_name g) object_name;
     mret true)
    (except_Exception (mret false)).

Definition copy_object (source_object_name dest_object_name : string)
  : M S bool :=
  try_except
    (_ ← minio_copy_object
           (_bucket_name g)
           dest_object_name
           (mkCopySource (_bucket_name g) source_object_name);
     mret true)
    (except_MinioException_Exception
       (raise (FileUploadException
                 (Some ("Error copying " +:+ source_object_name +:+ " to " +:+
                        dest_object_name))
                 None))
       (fun e => raise (FileUploadException None (Some e)))).

Definition remove_objects_folder (object_name : string) : M S bool :=
  try_except
    (objects ← list_objects (_bucket_name g) object_name;
     let objects_names := map obj_object_name objects in
     let delete_objects := map mkDeleteObject objects_names in
     _ ← remove_objects (_bucket_name g) delete_objects;
     mret true)
    (except_MinioException_Exception
       (raise (FileUploadException
                 (Some ("Error deleting " +:+ object_name +:+ " folder"))
                 None))
       (fun e => raise (FileUploadException None (Some e)))).

End Utilities.

(** ** A reading to compare with *)

Section Renamed.
Context {S : Type} `{MinioClient S}.
Variable g : Globals.

(** [upload_hyperparameters] with its object name made a parameter: what
    "the same function up to the object name" denotes. *)
Definition upload_hyperparameters_renamed (object_name : string)
    (record : PyValue) : M S bool :=
  try_except
    (serialized ← dumps record orjson.OPT_INDENT_2;
     let object_size := length serialized in
     result ← put_object
                (_bucket_name g)
                (format_value (_custom_files_folder g) +:+ "/" +:+ object_name)
                (io_BytesIO serialized)
                object_size
                "application/json";
     mret (if truth result then true else false))
    (except_MinioException_Exception
       (raise (FileUploadException
                 (Some ("Error uploading " +:+ object_name +:+ " file to S3 bucket"))
                 None))
       (fun e => raise (FileUploadException None (Some e)))).

End Renamed.

(** The seven functions as one family, for the statements that hold of all
    of them. *)
Inductive Operation : Type :=
| UploadHyperparameters (hyperparameters : HyperParameters)
| UploadRewardFunction (reward_function_buffer : Buffer)
| UploadMetadata (model_metadata : ModelMetadata)
| UploadLocalData (local_data_path object_name : string)
| CheckIfObjectExists (object_name : string)
| CopyObjectOp (source_object_name dest_object_name : string)
| RemoveObjectsFolder (object_name : string).

Definition run {S} `{MinioClient S} (g : Globals) (op : Operation) : M S bool :=
  match op with
  | UploadHyperparameters hp => upload_hyperparameters g hp
  | UploadRewardFunction buf => upload_reward_function g buf
  | UploadMetadata md => upload_metadata g md
  | UploadLocalData path name => upload_local_data g path name
  | CheckIfObjectExists name => check_if_object_exists g name
  | CopyObjectOp src dst => copy_object g src dst
  | RemoveObjectsFolder name => remove_objects_folder g name
  end.

(** The functions whose [except] clauses raise [FileUploadException]: all
    but [check_if_object_exists]. *)
Definition reraises (op : Operation) : bool :=
  match op with
  | CheckIfObjectExists _ => false
  | _ => true
  end.

(** The text each function gives [FileUploadException] in its
    [except MinioException] clause. *)
Definition failure_message (op : Operation) : string :=
  match op with
  | UploadHyperparameters _ =>
      "Error uploading hyperparameters.json file to S3 bucket"
  | UploadRewardFunction _ =>
      "Error uploading reward_function.py  file to S3 bucket"
  | UploadMetadata _ =>
      "Error uploading model_metadata.json  file to S3 bucket"
  | UploadLocalData _ name =>
      "Error uploading " +:+ name +:+ "  file to S3 bucket"
  | CopyObjectOp src dst => "Error copying " +:+ src +:+ " to " +:+ dst
  | RemoveObjectsFolder name => "Error deleting " +:+ name +:+ " folder"
  | CheckIfObjectExists _ => ""
  end.

(** The object names an operation is about, as its message should name
    them. *)
Definition failed_objects (op : Operation) : list string :=
  match op with
  | UploadHyperparameters _ => ["hyperparameters.json"]
  | UploadRewardFunction _ => ["reward_function.py"]
  | UploadMetadata _ => ["model_metadata.json"]
  | UploadLocalData _ name => [name]
  | CopyObjectOp src dst => [src; dst]
  | RemoveObjectsFolder name => [name]
  | CheckIfObjectExists name => [name]
  end.

Definition names (message name : string) : Prop :=
  exists before after, message = before +:+ name +:+ after.

(** ** What a run of a function did *)

Definition outcome {S A} (m : M S A) (w : World S) : Outcome A := fst (m w).

(** The calls the run made on the client, in order. *)
Definition issued {S A} (m : M S A) (w : World S) : list Call :=
  map ev_call (new_events w (snd (m w))).

(** What the client raised during the run. *)
Definition client_raised {S A} (m : M S A) (w : World S) : list PyExc :=
  omap ev_raised (new_events w (snd (m w))).

(** What leaves the two [except] clauses when the [try] body raised [e]:
    [FileUploadException] as the clause that names [e] builds it, or [e]
    itself when neither names it. *)
Definition wrap (message : string) (e : PyExc) : PyExc :=
  if isinstance_MinioException e
  then FileUploadException (Some message) None
  else if isinstance_Exception e
  then FileUploadException None (Some e)
  else e.

(** A run surfaces the client's errors through the two clauses: what the
    client raised during the run comes out as [wrap] gives it, and nothing
    comes out but [FileUploadException] and what the client raised that is
    not an [Exception]. *)
Definition surfaces {S} (m : M S bool) (message : string) (w : World S) : Prop :=
  (forall e, e ∈ client_raised m w -> outcome m w = Raise (wrap message e)) /\
  (forall x, outcome m w = Raise x ->
     isinstance_FileUploadException x = true \/
     (isinstance_Exception x = false /\ x ∈ client_raised m w)).

(** ** A client to run the module against: one bucket held in memory

    [put_object] reads [length] bytes from the stream, from its position;
    [stat_object] and [copy_object] raise [S3Error] on a key that is not
    there; a locked key cannot be deleted and is reported by
    [remove_objects]; an outage makes every call raise [ServerError]. *)
Record Store := mkStore {
  st_bucket : string;
  st_objects : gmap string bytes;
  st_files : gmap string bytes;
  st_locked : gset string;
  st_outage : bool
}.

Definition set_objects (st : Store) (objs : gmap string bytes) : Store :=
  {| st_bucket := st_bucket st;
     st_objects := objs;
     st_files := st_files st;
     st_locked := st_locked st;
     st_outage := st_outage st |}.

(** The checks every method starts with. *)
Definition store_guard {A} (bucket_name : option string) (st : Store)
    (k : Outcome A * Store) : Outcome A * Store :=
  match bucket_name with
  | None => (Raise (OtherException "TypeError" "expected string or bytes-like object"), st)
  | Some b =>
    if st_outage st then (Raise (MinioException "ServerError" "503"), st)
    else if (b =? st_bucket st)%string then k
    else (Raise (MinioException "S3Error" "NoSuchBucket"), st)
  end.

Definition written (bucket_name : option string) (key : string)
  : option ObjectWriteResult :=
  Some {| owr_bucket_name := bucket_name; owr_object_name := key; owr_etag := "etag" |}.

#[global] Instance store_client : MinioClient Store := {|
  client_put_object bucket_name key data len content_type st :=
    store_guard bucket_name st
      (let body := take len (drop (tell data) (getvalue data)) in
       if (length body <? len)%nat
       then (Raise (OtherException "OSError" "stream having not enough data"), st)
       else (Return (written bucket_name key),
             set_objects st (<[key := body]> (st_objects st))));
  client_fput_object bucket_name key file_path st :=
    store_guard bucket_name st
      (match st_files st !! file_path with
       | None => (Raise (OtherException "FileNotFoundError" file_path), st)
       | Some body =>
         (Return (written bucket_name key),
          set_objects st (<[key := body]> (st_objects st)))
       end);
  client_stat_object bucket_name key st :=
    store_guard bucket_name st
      (match st_objects st !! key with
       | None => (Raise (MinioException "S3Error" "NoSuchKey"), st)
       | Some body => (Return (mkObject key (length body)), st)
       end);
  client_copy_object bucket_name key source st :=
    store_guard bucket_name st
      (store_guard (cs_bucket_name source) st
         (match st_objects st !! cs_object_name source with
          | None => (Raise (MinioException "S3Error" "NoSuchKey"), st)
          | Some body =>
            (Return {| owr_bucket_name := bucket_name;
                       owr_object_name := key;
                       owr_etag := "etag" |},
             set_objects st (<[key := body]> (st_objects st)))
          end));
  client_list_objects bucket_name prefix st :=
    store_guard bucket_name st
      (Return (map (fun kb => mkObject (fst kb) (length (snd kb)))
                 (filter (fun kb => String.prefix prefix (fst kb) = true)
                    (map_to_list (st_objects st)))),
       st);
  client_remove_objects bucket_name delete_object_list st :=
    store_guard bucket_name st
      (Return (map (fun d => mkDeleteError "AccessDenied" (do_name d))
                 (filter (fun d => do_name d ∈ st_locked st) delete_object_list)),
       set_objects st
         (foldr (fun d objs =>
                   if bool_decide (do_name d ∈ st_locked st) then objs
                   else delete (do_name d) objs)
                (st_objects st) delete_object_list))
|}.

Definition bytes_of (s : string) : bytes := list_byte_of_string s.

Definition demo_store : Store :=
  {| st_bucket := "models";
     st_objects := {[ "run/a.json" := bytes_of "{}"; "run/b.bin" := bytes_of "xyz";
                      "a.json" := bytes_of "[1]" ]};
     st_files := {[ "/tmp/model.tar" := bytes_of "tarball" ]};
     st_locked := {[ "run/b.bin" ]};
     st_outage := false |}.

Definition batch_size_record : HyperParameters :=
  PyDict [("batch_size", PyInt 64)].

Definition batch_size_body : bytes :=
  bytes_of (String "{" (String "010"
    ("  " +:+ String "034" ("batch_size" +:+ String "034" (": 64" +:+
     String "010" "}"))))).

Definition demo_world : World Store :=
  {| client := demo_store;
     environ := {[ "BUCKET_NAME" := "models"; "CUSTOM_FILES_FOLDER_PATH" := "custom" ]};
     events := [] |}.

(** The same store during an outage of the server. *)
Definition outage_world : World Store :=
  {| client := {| st_bucket := "models";
                  st_objects := st_objects demo_store;
                  st_files := st_files demo_store;
                  st_locked := st_locked demo_store;
                  st_outage := true |};
     environ := environ demo_world;
     events := [] |}.

(** A process started with none of the variables set. *)
Definition unconfigured_world : World Store :=
  {| client := demo_store; environ := ∅; events := [] |}.

(** A bucket with nothing in it. *)
Definition empty_world : World Store :=
  {| client := set_objects demo_store ∅;
     environ := environ demo_world;
     events := [] |}.

Definition reward_buffer : BytesIO :=
  io_BytesIO (bytes_of "def reward_function(params): return 1.0").

(** A client that answers from a script, whatever the arguments: the
    stand-in a unit test hands to the module. *)
Record Script := mkScript {
  on_put_object : Outcome (option ObjectWriteResult);
  on_fput_object : Outcome (option ObjectWriteResult);
  on_stat_object : Outcome Object;
  on_copy_object : Outcome ObjectWriteResult;
  on_list_objects : Outcome (list Object);
  on_remove_objects : Outcome (list DeleteError)
}.

#[global] Instance script_client : MinioClient Script := {|
  client_put_object _ _ _ _ _ sc := (on_put_object sc, sc);
  client_fput_object _ _ _ sc := (on_fput_object sc, sc);
  client_stat_object _ _ sc := (on_stat_object sc, sc);
  client_copy_object _ _ _ sc := (on_copy_object sc, sc);
  client_list_objects _ _ sc := (on_list_objects sc, sc);
  client_remove_objects _ _ sc := (on_remove_objects sc, sc)
|}.

(** A client whose uploads return [None]. *)
Definition silent_script : Script :=
  {| on_put_object := Return None;
     on_fput_object := Return None;
     on_stat_object := Raise (MinioException "S3Error" "NoSuchKey");
     on_copy_object := Raise (MinioException "S3Error" "NoSuchKey");
     on_list_objects := Return [];
     on_remove_objects := Return [] |}.

Definition silent_world : World Script :=
  {| client := silent_script; environ := environ demo_world; events := [] |}.

(** ** Measures on calls and buffers *)

(** The object key a call is about: for a copy the destination, for a
    listing the prefix; a batch delete has its keys in its list. *)
Definition call_key (c : Call) : option string :=
  match c with
  | PutObject _ key _ _ _ => Some key
  | FputObject _ key _ => Some key
  | StatObject _ key => Some key
  | CopyObject _ key _ => Some key
  | ListObjects _ prefix => Some prefix
  | RemoveObjects _ _ => None
  end.

(** The number of bytes [buf.read()] gives: those from the position to the
    end. *)
Definition remaining (b : BytesIO) : nat :=
  length (drop (tell b) (getvalue b)).

(** The number of client calls in the body of each function. *)
Definition calls_in_body (op : Operation) : nat :=
  match op with
  | RemoveObjectsFolder _ => 2
  | _ => 1
  end.

(** ** More inputs *)



(** A buffer as [buf.write(...)] leaves it, the position at the end. *)
Definition written_buffer : BytesIO :=
  {| getvalue := getvalue reward_buffer;
     tell := length (getvalue reward_buffer) |}.

(** A client whose listing returns one object and whose batch delete
    raises. *)
Definition failing_delete_script : Script :=
  {| on_put_object := Return None;
     on_fput_object := Return None;
     on_stat_object := Return (mkObject "run/a.json" 2);
     on_copy_object := Raise (OtherException "ConnectionError" "reset");
     on_list_objects := Return [mkObject "run/a.json" 2];
     on_remove_objects := Raise (MinioException "S3Error" "AccessDenied") |}.

Definition failing_delete_world : World Script :=
  {| client := failing_delete_script; environ := environ demo_world; events := [] |}.

(** The environment of [demo_world] with other variables set beside the
    two. *)
Definition other_environment_world : World Store :=
  {| client := demo_store;
     environ := <[ "REWARD_FUNCTION_PATH" := "reward.py" ]>
                  (<[ "HOME" := "/root" ]> (environ demo_world));
     events := [] |}.

(** ** Inputs on the edges *)

(** A client interrupted in every call: [KeyboardInterrupt] is raised
    while the client's method runs. *)
Definition interrupted_script : Script :=
  {| on_put_object := Raise (BaseExceptionOnly "KeyboardInterrupt" "");
     on_fput_object := Raise (BaseExceptionOnly "KeyboardInterrupt" "");
     on_stat_object := Raise (BaseExceptionOnly "KeyboardInterrupt" "");
     on_copy_object := Raise (BaseExceptionOnly "KeyboardInterrupt" "");
     on_list_objects := Raise (BaseExceptionOnly "KeyboardInterrupt" "");
     on_remove_objects := Raise (BaseExceptionOnly "KeyboardInterrupt" "") |}.

Definition interrupted_world : World Script :=
  {| client := interrupted_script; environ := environ demo_world; events := [] |}.

(** A client whose listing has one object and whose [remove_objects]
    returns without having deleted anything, as one does that defers the
    deletion to the reading of the errors it returns. *)
Definition deferring_script : Script :=
  {| on_put_object := Return None;
     on_fput_object := Return None;
     on_stat_object := Return (mkObject "run/a.json" 2);
     on_copy_object := Raise (MinioException "S3Error" "NoSuchKey");
     on_list_objects := Return [mkObject "run/a.json" 2];
     on_remove_objects := Return [] |}.

Definition deferring_world : World Script :=
  {| client := deferring_script; environ := environ demo_world; events := [] |}.

(** A client that keeps what it reads from the stream,
    [stream.read(length)], without comparing its size with [length]. *)
Record Shelf := mkShelf { shelf_objects : gmap string bytes }.

#[global] Instance shelf_client : MinioClient Shelf := {|
  client_put_object bucket_name key data len content_type sh :=
    (Return (written bucket_name key),
     mkShelf (<[key := stream_read data len]> (shelf_objects sh)));
  client_fput_object bucket_name key file_path sh :=
    (Raise (OtherException "FileNotFoundError" file_path), sh);
  client_stat_object bucket_name key sh :=
    match shelf_objects sh !! key with
    | None => (Raise (MinioException "S3Error" "NoSuchKey"), sh)
    | Some body => (Return (mkObject key (length body)), sh)
    end;
  client_copy_object bucket_name key source sh :=
    match shelf_objects sh !! cs_object_name source with
    | None => (Raise (MinioException "S3Error" "NoSuchKey"), sh)
    | Some body =>
      (Return {| owr_bucket_name := bucket_name;
                 owr_object_name := key;
                 owr_etag := "etag" |},
       mkShelf (<[key := body]> (shelf_objects sh)))
    end;
  client_list_objects bucket_name prefix sh :=
    (Return (map (fun kb => mkObject (fst kb) (length (snd kb)))
               (filter (fun kb => String.prefix prefix (fst kb) = true)
                  (map_to_list (shelf_objects sh)))),
     sh);
  client_remove_objects bucket_name delete_object_list sh :=
    (Return [],
     mkShelf (foldr (fun d objs => delete (do_name d) objs)
                (shelf_objects sh) delete_object_list))
|}.

Definition shelf_world : World Shelf :=
  {| client := mkShelf ∅; environ := environ demo_world; events := [] |}.

(** A buffer of six bytes of which three were read. *)
Definition half_read_buffer : BytesIO :=
  {| getvalue := bytes_of "abcdef"; tell := 3 |}.





(** * Properties *)

(** ** The monad *)

Section MonadFacts.
Context {S : Type} `{MinioClient S}.

Lemma invoke_eq {A} (c : Call) (method : S -> Outcome A * S) (w : World S) :
  invoke c method w =
    (fst (method (client w)),
     mkWorld (snd (method (client w))) (environ w)
             (events w ++ [mkEvent c (raised (fst (method (client w))))])).
Proof. unfold invoke. destruct (method (client w)); reflexivity. Qed.

Lemma new_events_app (w : World S) s env (l : list Event) :
  new_events w (mkWorld s env (events w ++ l)) = l.
Proof. unfold new_events; simpl. apply drop_app_length. Qed.

Lemma new_events_refl (w : World S) : new_events w w = [].
Proof. unfold new_events. apply drop_all. Qed.

(** What the two [except] clauses make of what the body raises. *)
Lemma try_except_clauses {A} (body : M S A) (message : string) (w : World S) :
  try_except body
    (except_MinioException_Exception
       (raise (FileUploadException (Some message) None))
       (fun e => raise (FileUploadException None (Some e)))) w =
  match body w with
  | (Return a, w') => (Return a, w')
  | (Raise e, w') => (Raise (wrap message e), w')
  end.
Proof.
  unfold try_except, except_MinioException_Exception, raise, wrap.
  destruct (body w) as [[a|e] w']; [reflexivity|].
  destruct (isinstance_MinioException e); [reflexivity|].
  destruct (isinstance_Exception e); reflexivity.
Qed.
End MonadFacts.

Section RunEquations.
Context {S : Type} `{MinioClient S}.
Variable g : Globals.

(** A function that makes one call and maps its result. *)
Lemma one_call_eq {A} (c : Call) (method : S -> Outcome A * S)
    (post : A -> bool) (message : string) (w : World S) :
  try_except (x ← invoke c method; mret (post x))
    (except_MinioException_Exception
       (raise (FileUploadException (Some message) None))
       (fun e => raise (FileUploadException None (Some e)))) w =
  (match fst (method (client w)) with
   | Return x => Return (post x)
   | Raise e => Raise (wrap message e)
   end,
   mkWorld (snd (method (client w))) (environ w)
           (events w ++ [mkEvent c (raised (fst (method (client w))))])).
Proof.
  rewrite try_except_clauses. unfold mbind, M_bind, mret, M_ret.
  rewrite invoke_eq. destruct (fst (method (client w))); reflexivity.
Qed.

Lemma truth_is_Some (result : option ObjectWriteResult) :
  (if truth result then true else false) = bool_decide (is_Some result).
Proof. destruct result; reflexivity. Qed.

Lemma upload_reward_function_eq (buffer : BytesIO) (w : World S) :
  let c := PutObject (_bucket_name g)
             (format_value (_custom_files_folder g) +:+ "/reward_function.py")
             buffer (length (getvalue buffer)) "text/plain" in
  let answer := client_put_object (_bucket_name g)
             (format_value (_custom_files_folder g) +:+ "/reward_function.py")
             buffer (length (getvalue buffer)) "text/plain" (client w) in
  upload_reward_function g buffer w =
  (match fst answer with
   | Return result => Return (bool_decide (is_Some result))
   | Raise e => Raise (wrap "Error uploading reward_function.py  file to S3 bucket" e)
   end,
   mkWorld (snd answer) (environ w)
           (events w ++ [mkEvent c (raised (fst answer))])).
Proof.
  intros c answer. unfold upload_reward_function.
  rewrite try_except_clauses.
  unfold getbuffer, mbind, M_bind, mret, M_ret, put_object, getbuffer_nbytes.
  rewrite invoke_eq.
  change (client_put_object _ _ _ _ _ (client w)) with answer.
  destruct (fst answer) as [[r|]|e]; reflexivity.
Qed.

(** On a closed buffer [getbuffer()] raises before anything is sent. *)
Lemma upload_reward_function_closed (w : World S) :
  upload_reward_function g closed_buffer w =
  (Raise (FileUploadException None
            (Some (OtherException "ValueError" "I/O operation on closed file."))),
   w).
Proof. reflexivity. Qed.

Lemma upload_local_data_eq (local_data_path object_name : string) (w : World S) :
  let c := FputObject (_bucket_name g) object_name local_data_path in
  let answer := client_fput_object (_bucket_name g) object_name local_data_path
                  (client w) in
  upload_local_data g local_data_path object_name w =
  (match fst answer with
   | Return result => Return (bool_decide (is_Some result))
   | Raise e =>
     Raise (wrap ("Error uploading " +:+ object_name +:+ "  file to S3 bucket") e)
   end,
   mkWorld (snd answer) (environ w)
           (events w ++ [mkEvent c (raised (fst answer))])).
Proof.
  intros c answer. unfold upload_local_data, fput_object.
  rewrite one_call_eq.
  change (client_fput_object _ _ _ (client w)) with answer.
  destruct (fst answer) as [[r|]|e]; reflexivity.
Qed.

Lemma copy_object_eq (source_object_name dest_object_name : string) (w : World S) :
  let source := mkCopySource (_bucket_name g) source_object_name in
  let c := CopyObject (_bucket_name g) dest_object_name source in
  let answer := client_copy_object (_bucket_name g) dest_object_name source
                  (client w) in
  copy_object g source_object_name dest_object_name w =
  (match fst answer with
   | Return _ => Return true
   | Raise e =>
     Raise (wrap ("Error copying " +:+ source_object_name +:+ " to " +:+
                  dest_object_name) e)
   end,
   mkWorld (snd answer) (environ w)
           (events w ++ [mkEvent c (raised (fst answer))])).
Proof.
  intros source c answer. unfold copy_object, minio_copy_object.
  rewrite (one_call_eq _ _ (fun _ => true)). reflexivity.
Qed.

Lemma check_if_object_exists_eq (object_name : string) (w : World S) :
  let c := StatObject (_bucket_name g) object_name in
  let answer := client_stat_object (_bucket_name g) object_name (client w) in
  check_if_object_exists g object_name w =
  (match fst answer with
   | Return _ => Return true
   | Raise e => if isinstance_Exception e then Return false else Raise e
   end,
   mkWorld (snd answer) (environ w)
           (events w ++ [mkEvent c (raised (fst answer))])).
Proof.
  intros c answer. unfold check_if_object_exists, try_except, stat_object.
  unfold mbind, M_bind, mret, M_ret. rewrite invoke_eq. fold answer.
  destruct (fst answer) as [o|e]; [reflexivity|].
  unfold except_Exception, raise. destruct (isinstance_Exception e); reflexivity.
Qed.

(** The two JSON uploads, once [dumps] has given the body. *)
Lemma upload_json_eq (object_name message : string) (record : PyValue)
    (body : bytes) (w : World S) :
  orjson.dumps record orjson.OPT_INDENT_2 = Some body ->
  let key := format_value (_custom_files_folder g) +:+ "/" +:+ object_name in
  let c := PutObject (_bucket_name g) key (io_BytesIO body) (length body)
             "application/json" in
  let answer := client_put_object (_bucket_name g) key (io_BytesIO body)
             (length body) "application/json" (client w) in
  try_except
    (serialized ← dumps record orjson.OPT_INDENT_2;
     result ← put_object (_bucket_name g) key (io_BytesIO serialized)
                (length serialized) "application/json";
     mret (if truth result then true else false))
    (except_MinioException_Exception
       (raise (FileUploadException (Some message) None))
       (fun e => raise (FileUploadException None (Some e)))) w =
  (match fst answer with
   | Return result => Return (bool_decide (is_Some result))
   | Raise e => Raise (wrap message e)
   end,
   mkWorld (snd answer) (environ w)
           (events w ++ [mkEvent c (raised (fst answer))])).
Proof.
  intros Hd key c answer. rewrite try_except_clauses.
  unfold dumps. rewrite Hd. unfold mbind, M_bind, mret, M_ret, put_object.
  rewrite invoke_eq.
  change (client_put_object _ _ _ _ _ (client w)) with answer.
  destruct (fst answer) as [[r|]|e]; reflexivity.
Qed.

(** When [dumps] raises, nothing is sent. *)
Lemma upload_json_unserializable (object_name message : string)
    (record : PyValue) (w : World S) :
  orjson.dumps record orjson.OPT_INDENT_2 = None ->
  let key := format_value (_custom_files_folder g) +:+ "/" +:+ object_name in
  try_except
    (serialized ← dumps record orjson.OPT_INDENT_2;
     result ← put_object (_bucket_name g) key (io_BytesIO serialized)
                (length serialized) "application/json";
     mret (if truth result then true else false))
    (except_MinioException_Exception
       (raise (FileUploadException (Some message) None))
       (fun e => raise (FileUploadException None (Some e)))) w =
  (Raise (FileUploadException None
            (Some (OtherException "TypeError" (orjson.error_text record)))), w).
Proof.
  intros Hd key. rewrite try_except_clauses.
  unfold dumps. rewrite Hd. reflexivity.
Qed.

Lemma remove_objects_folder_eq (object_name : string) (w : World S) :
  let message := "Error deleting " +:+ object_name +:+ " folder" in
  let c1 := ListObjects (_bucket_name g) object_name in
  let listing := client_list_objects (_bucket_name g) object_name (client w) in
  remove_objects_folder g object_name w =
  match fst listing with
  | Raise e =>
    (Raise (wrap message e),
     mkWorld (snd listing) (environ w) (events w ++ [mkEvent c1 (Some e)]))
  | Return objects =>
    let delete_objects := map mkDeleteObject (map obj_object_name objects) in
    let c2 := RemoveObjects (_bucket_name g) delete_objects in
    let removal := client_remove_objects (_bucket_name g) delete_objects
                     (snd listing) in
    (match fst removal with
     | Return _ => Return true
     | Raise e => Raise (wrap message e)
     end,
     mkWorld (snd removal) (environ w)
             (events w ++ [mkEvent c1 None; mkEvent c2 (raised (fst removal))]))
  end.
Proof.
  intros message c1 listing. unfold remove_objects_folder.
  rewrite try_except_clauses.
  unfold mbind, M_bind, mret, M_ret, list_objects, remove_objects.
  rewrite invoke_eq. fold listing.
  destruct (fst listing) as [objects|e]; [|reflexivity].
  rewrite invoke_eq; simpl. rewrite <- app_assoc; simpl.
  destruct (fst (client_remove_objects _ _ _)); reflexivity.
Qed.
End RunEquations.

(** ** The functions one by one *)

Section Claims.
Context {S : Type} `{MinioClient S}.
Variable g : Globals.

(** C2, amended: [check_if_object_exists] makes one [stat_object] call.
    It returns [True] exactly when the call returned and [False] whenever
    the call raised an [Exception], whatever the error (an absent object,
    or any other failure of the probe).  What the client raises that is
    not an [Exception] ([KeyboardInterrupt], [SystemExit]) is not caught
    by [except Exception]: it leaves the function as it was raised.  The
    function raises nothing else. *)
Theorem check_if_object_exists_swallows_errors (object_name : string) (w : World S) :
  let probe := fst (client_stat_object (_bucket_name g) object_name (client w)) in
  let check := check_if_object_exists g object_name in
  issued check w = [StatObject (_bucket_name g) object_name] /\
  (outcome check w = Return true <-> exists o, probe = Return o) /\
  (forall e, probe = Raise e -> isinstance_Exception e = true ->
     outcome check w = Return false) /\
  (forall e, probe = Raise e -> isinstance_Exception e = false ->
     outcome check w = Raise e) /\
  (forall x, outcome check w = Raise x ->
     probe = Raise x /\ isinstance_Exception x = false).
Proof.
  intros probe check. unfold issued, outcome, check.
  rewrite check_if_object_exists_eq. cbn [fst snd].
  rewrite new_events_app. fold probe.
  split; [reflexivity|]. split; [|split; [|split]].
  - destruct probe as [o|e]; split; intros Hx; eauto.
    + destruct (isinstance_Exception e); discriminate Hx.
    + destruct Hx; discriminate.
  - intros e -> He. now rewrite He.
  - intros e -> He. now rewrite He.
  - intros x Hx. destruct probe as [o|e]; [discriminate Hx|].
    destruct (isinstance_Exception e) eqn:He; [discriminate Hx|].
    injection Hx as <-. auto.
Qed.

(** C5, amended: on an open buffer [upload_reward_function] makes one
    [put_object] call: the key is [{prefix}/reward_function.py], the
    stream is the buffer it was given, as it was given (same bytes, same
    position), the length is the number of bytes of the whole content and
    the content type is [text/plain]; when the client returns, the
    function returns [True] iff it returned a result object.  The buffer
    is not rewound: the [length] bytes the client reads from it are the
    whole content when the position is 0, and fewer than [length] bytes
    are there to read when it is not.  On a closed buffer nothing is sent
    and [FileUploadException] wraps the [ValueError] of [getbuffer()]. *)
Theorem upload_reward_function_passes_buffer (stream : BytesIO) (w : World S) :
  let key := format_value (_custom_files_folder g) +:+ "/reward_function.py" in
  let size := length (getvalue stream) in
  (forall prefix, _custom_files_folder g = Some prefix ->
     key = prefix +:+ "/reward_function.py") /\
  issued (upload_reward_function g stream) w =
    [PutObject (_bucket_name g) key stream size "text/plain"] /\
  (forall (result : option ObjectWriteResult) (s' : S),
     client_put_object (_bucket_name g) key stream size
       "text/plain" (client w) = (Return result, s') ->
     outcome (upload_reward_function g stream) w =
       Return (bool_decide (is_Some result)) /\
     client (snd (upload_reward_function g stream w)) = s') /\
  (tell stream = 0 -> stream_read stream size = getvalue stream) /\
  (0 < tell stream -> getvalue stream <> [] ->
     length (stream_read stream size) < size) /\
  issued (upload_reward_function g closed_buffer) w = [] /\
  outcome (upload_reward_function g closed_buffer) w =
    Raise (FileUploadException None
             (Some (OtherException "ValueError" "I/O operation on closed file."))).
Proof.
  intros key size. split; [intros prefix Hp; unfold key; now rewrite Hp|].
  unfold issued, outcome.
  rewrite upload_reward_function_eq, upload_reward_function_closed.
  cbn [fst snd client]. rewrite new_events_app, new_events_refl.
  fold key size. split; [reflexivity|]. split; [|split; [|split]].
  - intros result s' Hput. rewrite Hput. auto.
  - intros Hpos. unfold stream_read. rewrite Hpos. cbn [drop].
    apply firstn_all.
  - intros Hpos Hdata. unfold stream_read.
    rewrite length_take, length_drop. unfold size.
    destruct (getvalue stream); [congruence|]. simpl length. lia.
  - auto.
Qed.



(** C4: when the listing and the batch delete return,
    [remove_objects_folder] has made two calls, [list_objects] on the
    prefix and one [remove_objects] with the names of the listing, one
    [DeleteObject] per listed object and in the listing's order; the
    client is left in the state its [remove_objects] gave for that batch,
    and the function returns [True], however many objects were listed;
    with none listed the batch is empty and the result is still [True]. *)
Theorem remove_objects_folder_deletes_listing (object_name : string) (w : World S)
    (objects : list Object) (s1 : S) (errors : list DeleteError) (s2 : S) :
  let delete_objects := map mkDeleteObject (map obj_object_name objects) in
  client_list_objects (_bucket_name g) object_name (client w) =
    (Return objects, s1) ->
  client_remove_objects (_bucket_name g) delete_objects s1 = (Return errors, s2) ->
  issued (remove_objects_folder g object_name) w =
    [ListObjects (_bucket_name g) object_name;
     RemoveObjects (_bucket_name g) delete_objects] /\
  map do_name delete_objects = map obj_object_name objects /\
  outcome (remove_objects_folder g object_name) w = Return true /\
  client (snd (remove_objects_folder g object_name w)) = s2 /\
  remove_objects_folder g object_name w =
    (Return true,
     mkWorld (snd (client_remove_objects (_bucket_name g) delete_objects
                     (snd (client_list_objects (_bucket_name g) object_name
                             (client w)))))
       (environ w)
       (events w ++ [mkEvent (ListObjects (_bucket_name g) object_name) None;
                     mkEvent (RemoveObjects (_bucket_name g) delete_objects) None])) /\
  (objects = [] ->
     issued (remove_objects_folder g object_name) w =
       [ListObjects (_bucket_name g) object_name; RemoveObjects (_bucket_name g) []] /\
     client (snd (remove_objects_folder g object_name w)) =
       snd (client_remove_objects (_bucket_name g) [] s1)).
Proof.
  intros delete_objects Hlist Hremove. unfold issued, outcome.
  rewrite remove_objects_folder_eq. rewrite Hlist. cbn [fst snd].
  fold delete_objects. rewrite Hremove. cbn [fst snd raised client].
  rewrite new_events_app. repeat split.
  - unfold delete_objects. rewrite map_map. apply map_id.
  - unfold delete_objects. rewrite H0. reflexivity.
  - unfold delete_objects in Hremove. rewrite H0 in Hremove. simpl in Hremove.
    now rewrite Hremove.
Qed.

(** C9: the errors [remove_objects] returns are not looked at: when it
    returns a list that reports failed deletions, [remove_objects_folder]
    still returns [True], raises nothing, and what it leaves behind does
    not depend on that list. *)
Theorem remove_objects_folder_drops_deletion_errors (object_name : string)
    (w : World S) (objects : list Object) (s1 : S)
    (errors : list DeleteError) (s2 : S) :
  let delete_objects := map mkDeleteObject (map obj_object_name objects) in
  client_list_objects (_bucket_name g) object_name (client w) =
    (Return objects, s1) ->
  client_remove_objects (_bucket_name g) delete_objects s1 = (Return errors, s2) ->
  errors <> [] ->
  remove_objects_folder g object_name w =
    (Return true,
     mkWorld s2 (environ w)
       (events w ++ [mkEvent (ListObjects (_bucket_name g) object_name) None;
                     mkEvent (RemoveObjects (_bucket_name g) delete_objects) None])).
Proof.
  intros delete_objects Hlist Hremove _.
  rewrite remove_objects_folder_eq. rewrite Hlist. cbn [fst snd].
  fold delete_objects. rewrite Hremove. reflexivity.
Qed.
End Claims.

(** ** Errors *)

Lemma append_assoc (a b c : string) : (a +:+ b) +:+ c = a +:+ b +:+ c.
Proof. induction a as [|x a IH]; simpl; [reflexivity | now rewrite IH]. Qed.

Lemma append_nil_r (a : string) : a +:+ "" = a.
Proof. induction a as [|x a IH]; simpl; [reflexivity | now rewrite IH]. Qed.


Lemma failure_message_names (op : Operation) (name : string) :
  reraises op = true -> name ∈ failed_objects op -> names (failure_message op) name.
Proof.
  intros Hop Hin. unfold names.
  destruct op; try discriminate Hop; simpl in Hin;
    repeat match goal with
           | H : _ ∈ [] |- _ => apply elem_of_nil in H; destruct H
           | H : _ ∈ _ :: _ |- _ => apply elem_of_cons in H; destruct H as [->|H]
           end.
  - exists "Error uploading ", " file to S3 bucket". reflexivity.
  - exists "Error uploading ", "  file to S3 bucket". reflexivity.
  - exists "Error uploading ", "  file to S3 bucket". reflexivity.
  - exists "Error uploading ", "  file to S3 bucket". reflexivity.
  - exists "Error copying ", (" to " +:+ dest_object_name). reflexivity.
  - exists ("Error copying " +:+ source_object_name +:+ " to "), "".
    simpl. now rewrite append_nil_r, !append_assoc.
  - exists "Error deleting ", " folder". reflexivity.
Qed.

Section Errors.
Context {S : Type} `{MinioClient S}.
Variable g : Globals.

(** What leaves the clauses is a [FileUploadException], or what came in
    when that is not an [Exception]. *)
Lemma wrap_cases (message : string) (e : PyExc) :
  isinstance_FileUploadException (wrap message e) = true \/
  (isinstance_Exception e = false /\ wrap message e = e).
Proof.
  unfold wrap. destruct (isinstance_MinioException e); [now left|].
  destruct (isinstance_Exception e) eqn:He; [now left|]. now right.
Qed.

Lemma wrap_surfaces (message : string) (e x : PyExc) :
  x = wrap message e ->
  isinstance_FileUploadException x = true \/
  (isinstance_Exception x = false /\ x ∈ [e]).
Proof.
  intros ->. destruct (wrap_cases message e) as [Hf|[Hb ->]]; [now left|].
  right. split; [exact Hb|]. now apply list_elem_of_singleton.
Qed.

Lemma surfaces_one_call {A} (m : M S bool) (message : string) (w : World S)
    (o : Outcome A) (post : A -> bool) (s : S) (c : Call) :
  m w = (match o with
         | Return x => Return (post x)
         | Raise e => Raise (wrap message e)
         end,
         mkWorld s (environ w) (events w ++ [mkEvent c (raised o)])) ->
  surfaces m message w.
Proof.
  intros Hm. unfold surfaces, client_raised, outcome. rewrite Hm.
  cbn [fst snd]. rewrite new_events_app. destruct o as [x|e0]; simpl; split.
  - intros e He. apply elem_of_nil in He. destruct He.
  - discriminate.
  - intros e He. apply list_elem_of_singleton in He. now subst.
  - intros x [= <-]. now apply (wrap_surfaces message e0).
Qed.

Lemma surfaces_upload_json (object_name message : string) (record : PyValue)
    (w : World S) :
  surfaces
    (try_except
       (serialized ← dumps record orjson.OPT_INDENT_2;
        result ← put_object (_bucket_name g)
                   (format_value (_custom_files_folder g) +:+ "/" +:+ object_name)
                   (io_BytesIO serialized) (length serialized) "application/json";
        mret (if truth result then true else false))
       (except_MinioException_Exception
          (raise (FileUploadException (Some message) None))
          (fun e => raise (FileUploadException None (Some e)))))
    message w.
Proof.
  destruct (orjson.dumps record orjson.OPT_INDENT_2) as [body|] eqn:Hd.
  - eapply surfaces_one_call. apply (upload_json_eq g _ _ _ _ _ Hd).
  - unfold surfaces, client_raised, outcome.
    rewrite (upload_json_unserializable g _ _ _ _ Hd). cbn [fst snd].
    rewrite new_events_refl. split.
    + intros e He. apply elem_of_nil in He. destruct He.
    + intros x [= <-]. now left.
Qed.

Lemma surfaces_remove_objects_folder (object_name : string) (w : World S) :
  surfaces (remove_objects_folder g object_name)
    ("Error deleting " +:+ object_name +:+ " folder") w.
Proof.
  unfold surfaces, client_raised, outcome.
  rewrite remove_objects_folder_eq.
  destruct (fst (client_list_objects _ _ _)) as [objects|e0]; cbn [fst snd].
  - rewrite new_events_app.
    destruct (fst (client_remove_objects _ _ _)) as [errors|e1]; simpl; split.
    + intros e He. apply elem_of_nil in He. destruct He.
    + discriminate.
    + intros e He. apply list_elem_of_singleton in He. now subst.
    + intros x [= <-].
      now apply (wrap_surfaces ("Error deleting " +:+ object_name +:+ " folder") e1).
  - rewrite new_events_app. simpl. split.
    + intros e He. apply list_elem_of_singleton in He. now subst.
    + intros x [= <-].
      now apply (wrap_surfaces ("Error deleting " +:+ object_name +:+ " folder") e0).
Qed.

Lemma surfaces_run (op : Operation) (w : World S) :
  reraises op = true -> surfaces (run g op) (failure_message op) w.
Proof.
  destruct op; intros Hop; try discriminate Hop; simpl.
  - apply surfaces_upload_json.
  - destruct reward_function_buffer as [stream|].
    + eapply surfaces_one_call. apply upload_reward_function_eq.
    + unfold surfaces, client_raised, outcome.
      rewrite upload_reward_function_closed. cbn [fst snd].
      rewrite new_events_refl. split.
      * intros e He. apply elem_of_nil in He. destruct He.
      * intros x [= <-]. now left.
  - apply (surfaces_upload_json "model_metadata.json").
  - eapply surfaces_one_call. apply upload_local_data_eq.
  - eapply (surfaces_one_call _ _ _ _ (fun _ => true)). apply copy_object_eq.
  - apply surfaces_remove_objects_folder.
Qed.

(** C3, amended: in [upload_hyperparameters], [upload_reward_function],
    [upload_metadata], [upload_local_data], [copy_object] and
    [remove_objects_folder], an [Exception] the client raises comes out as
    [FileUploadException]: with the function's message, which names the
    object, when it is a [MinioException], and wrapping the exception
    itself otherwise.  What the client raises that is not an [Exception]
    ([KeyboardInterrupt], [SystemExit]) matches neither clause and comes
    out as it is.  Nothing else is ever raised: what comes out is a
    [FileUploadException], or is not an [Exception] and was raised by the
    client. *)
Theorem client_errors_become_FileUploadException (op : Operation) (w : World S)
    (e : PyExc) :
  reraises op = true ->
  e ∈ client_raised (run g op) w ->
  (isinstance_MinioException e = true ->
     outcome (run g op) w =
       Raise (FileUploadException (Some (failure_message op)) None)) /\
  (isinstance_Exception e = true -> isinstance_MinioException e = false ->
     outcome (run g op) w = Raise (FileUploadException None (Some e))) /\
  (isinstance_Exception e = false -> outcome (run g op) w = Raise e) /\
  (forall name, name ∈ failed_objects op -> names (failure_message op) name) /\
  (forall x, outcome (run g op) w = Raise x ->
     isinstance_FileUploadException x = true \/
     (isinstance_Exception x = false /\ x ∈ client_raised (run g op) w)).
Proof.
  intros Hop He. destruct (surfaces_run op w Hop) as [Hwrap Honly].
  specialize (Hwrap e He). unfold wrap in Hwrap.
  split; [|split; [|split; [|split]]].
  - intros Hm. now rewrite Hm in Hwrap.
  - intros Hexc Hm. now rewrite Hm, Hexc in Hwrap.
  - intros Hexc. destruct e; try discriminate Hexc. exact Hwrap.
  - intros name. now apply failure_message_names.
  - exact Honly.
Qed.
End Errors.

(** ** Configuration *)

Section Configuration.
Context {S : Type} `{MinioClient S}.

Lemma issued_one_call {A} (m : M S A) (w : World S) (o : Outcome A)
    (s : S) (c : Call) (e : option PyExc) :
  m w = (o, mkWorld s (environ w) (events w ++ [mkEvent c e])) ->
  issued m w = [c].
Proof.
  intros Hm. unfold issued. rewrite Hm. cbn [snd].
  now rewrite new_events_app.
Qed.

Lemma issued_upload_reward_function (g : Globals) (buffer : BytesIO) (w : World S) :
  issued (upload_reward_function g buffer) w =
    [PutObject (_bucket_name g)
       (format_value (_custom_files_folder g) +:+ "/reward_function.py")
       buffer (length (getvalue buffer)) "text/plain"].
Proof.
  unfold issued. rewrite upload_reward_function_eq. cbn [snd].
  now rewrite new_events_app.
Qed.

Lemma issued_upload_reward_function_closed (g : Globals) (w : World S) :
  issued (upload_reward_function g closed_buffer) w = [].
Proof.
  unfold issued. rewrite upload_reward_function_closed. cbn [snd].
  now rewrite new_events_refl.
Qed.

Lemma issued_upload_hyperparameters (g : Globals) (record : PyValue)
    (body : bytes) (w : World S) :
  orjson.dumps record orjson.OPT_INDENT_2 = Some body ->
  issued (upload_hyperparameters g record) w =
    [PutObject (_bucket_name g)
       (format_value (_custom_files_folder g) +:+ "/hyperparameters.json")
       (io_BytesIO body) (length body) "application/json"].
Proof.
  intros Hd. unfold issued, upload_hyperparameters.
  rewrite (upload_json_eq g _ _ _ _ _ Hd). cbn [snd].
  now rewrite new_events_app.
Qed.

Lemma issued_upload_metadata (g : Globals) (record : PyValue)
    (body : bytes) (w : World S) :
  orjson.dumps record orjson.OPT_INDENT_2 = Some body ->
  issued (upload_metadata g record) w =
    [PutObject (_bucket_name g)
       (format_value (_custom_files_folder g) +:+ "/model_metadata.json")
       (io_BytesIO body) (length body) "application/json"].
Proof.
  intros Hd. unfold issued, upload_metadata.
  rewrite (upload_json_eq g _ _ _ _ _ Hd). cbn [snd].
  now rewrite new_events_app.
Qed.

Lemma issued_upload_unserializable (g : Globals) (record : PyValue) (w : World S) :
  orjson.dumps record orjson.OPT_INDENT_2 = None ->
  issued (upload_hyperparameters g record) w = [] /\
  issued (upload_metadata g record) w = [].
Proof.
  intros Hd. unfold issued, upload_hyperparameters, upload_metadata.
  rewrite !(upload_json_unserializable g _ _ _ _ Hd). cbn [snd].
  now rewrite new_events_refl.
Qed.

(** Every call of every function carries the module's bucket name. *)
Lemma issued_bucket (g : Globals) (op : Operation) (w : World S) (c : Call) :
  c ∈ issued (run g op) w -> call_bucket c = _bucket_name g.
Proof.
  destruct op; simpl.
  - destruct (orjson.dumps hyperparameters orjson.OPT_INDENT_2) as [body|] eqn:Hd.
    + rewrite (issued_upload_hyperparameters _ _ _ _ Hd).
      intros ->%list_elem_of_singleton. reflexivity.
    + rewrite (proj1 (issued_upload_unserializable g _ w Hd)).
      intros []%elem_of_nil.
  - destruct reward_function_buffer as [stream|].
    + rewrite issued_upload_reward_function.
      intros ->%list_elem_of_singleton. reflexivity.
    + rewrite issued_upload_reward_function_closed.
      intros []%elem_of_nil.
  - destruct (orjson.dumps model_metadata orjson.OPT_INDENT_2) as [body|] eqn:Hd.
    + rewrite (issued_upload_metadata _ _ _ _ Hd).
      intros ->%list_elem_of_singleton. reflexivity.
    + rewrite (proj2 (issued_upload_unserializable g _ w Hd)).
      intros []%elem_of_nil.
  - erewrite issued_one_call by apply upload_local_data_eq.
    intros ->%list_elem_of_singleton. reflexivity.
  - erewrite issued_one_call by apply check_if_object_exists_eq.
    intros ->%list_elem_of_singleton. reflexivity.
  - erewrite issued_one_call by apply copy_object_eq.
    intros ->%list_elem_of_singleton. reflexivity.
  - unfold issued. rewrite remove_objects_folder_eq.
    destruct (fst (client_list_objects _ _ _)) as [objects|e]; cbn [snd];
      rewrite new_events_app; simpl.
    + intros [->|[->|[]%elem_of_nil]%elem_of_cons]%elem_of_cons; reflexivity.
    + intros ->%list_elem_of_singleton. reflexivity.
Qed.

(** C8: the bucket name and the key prefix are those of the environment
    at the time the module was imported ([w0]), in every call any function
    makes later, whatever the environment is by then ([w]).  A prefix that
    was set is used as it is: the three fixed keys are the prefix, a
    slash and the fixed name.  With the prefix not set at import, the
    three fixed keys start with the text [None], and the calls are made
    with these keys all the same. *)
Theorem configuration_read_at_import (w0 w : World S) (op : Operation) :
  let g := import_module w0 in
  let bucket := environ w0 !! "BUCKET_NAME" in
  let prefix := environ w0 !! "CUSTOM_FILES_FOLDER_PATH" in
  (forall c, c ∈ issued (run g op) w -> call_bucket c = bucket) /\
  (forall buffer : BytesIO,
     issued (upload_reward_function g buffer) w =
       [PutObject bucket (format_value prefix +:+ "/reward_function.py")
          buffer (length (getvalue buffer)) "text/plain"]) /\
  (forall record body,
     orjson.dumps record orjson.OPT_INDENT_2 = Some body ->
     issued (upload_hyperparameters g record) w =
       [PutObject bucket (format_value prefix +:+ "/hyperparameters.json")
          (io_BytesIO body) (length body) "application/json"] /\
     issued (upload_metadata g record) w =
       [PutObject bucket (format_value prefix +:+ "/model_metadata.json")
          (io_BytesIO body) (length body) "application/json"]) /\
  (forall value, prefix = Some value ->
     (forall buffer : BytesIO,
        issued (upload_reward_function g buffer) w =
          [PutObject bucket (value +:+ "/reward_function.py")
             buffer (length (getvalue buffer)) "text/plain"]) /\
     (forall record body,
        orjson.dumps record orjson.OPT_INDENT_2 = Some body ->
        issued (upload_hyperparameters g record) w =
          [PutObject bucket (value +:+ "/hyperparameters.json")
             (io_BytesIO body) (length body) "application/json"] /\
        issued (upload_metadata g record) w =
          [PutObject bucket (value +:+ "/model_metadata.json")
             (io_BytesIO body) (length body) "application/json"])) /\
  (prefix = None ->
     (forall buffer : BytesIO,
        issued (upload_reward_function g buffer) w =
          [PutObject bucket "None/reward_function.py"
             buffer (length (getvalue buffer)) "text/plain"]) /\
     (forall record body,
        orjson.dumps record orjson.OPT_INDENT_2 = Some body ->
        issued (upload_hyperparameters g record) w =
          [PutObject bucket "None/hyperparameters.json"
             (io_BytesIO body) (length body) "application/json"] /\
        issued (upload_metadata g record) w =
          [PutObject bucket "None/model_metadata.json"
             (io_BytesIO body) (length body) "application/json"])).
Proof.
  intros g bucket prefix.
  assert (Hreward : forall buffer : BytesIO,
     issued (upload_reward_function g buffer) w =
       [PutObject bucket (format_value prefix +:+ "/reward_function.py")
          buffer (length (getvalue buffer)) "text/plain"])
    by (intros buffer; apply issued_upload_reward_function).
  assert (Hjson : forall record body,
     orjson.dumps record orjson.OPT_INDENT_2 = Some body ->
     issued (upload_hyperparameters g record) w =
       [PutObject bucket (format_value prefix +:+ "/hyperparameters.json")
          (io_BytesIO body) (length body) "application/json"] /\
     issued (upload_metadata g record) w =
       [PutObject bucket (format_value prefix +:+ "/model_metadata.json")
          (io_BytesIO body) (length body) "application/json"]).
  { intros record body Hd. split.
    - now apply issued_upload_hyperparameters.
    - now apply issued_upload_metadata. }
  split; [|split; [exact Hreward|split; [exact Hjson|split]]].
  - intros c Hc. apply (issued_bucket g op w c Hc).
  - intros value Hsome. rewrite Hsome in Hreward, Hjson. split; assumption.
  - intros Hnone. rewrite Hnone in Hreward, Hjson. split; assumption.
Qed.
End Configuration.

(** ** [upload_metadata] against [upload_hyperparameters] *)

Section Renaming.
Context {S : Type} `{MinioClient S}.
Variable g : Globals.

Lemma upload_hyperparameters_renamed_self (record : PyValue) :
  upload_hyperparameters g record =
  upload_hyperparameters_renamed g "hyperparameters.json" record.
Proof. reflexivity. Qed.

(** The two agree on everything but the text given to
    [FileUploadException] when the client raises [MinioException]: the
    key, the body, the length, the content type, the result, the wrapping
    of other exceptions. *)
Lemma upload_metadata_agrees_unless_MinioException (record : PyValue) (w : World S) :
  (forall e, e ∈ client_raised (upload_metadata g record) w ->
     isinstance_MinioException e = false) ->
  upload_metadata g record w =
  upload_hyperparameters_renamed g "model_metadata.json" record w.
Proof.
  intros Hnot. unfold upload_hyperparameters_renamed.
  destruct (orjson.dumps record orjson.OPT_INDENT_2) as [body|] eqn:Hd.
  - revert Hnot. unfold client_raised, upload_metadata.
    rewrite !(upload_json_eq g _ _ _ _ _ Hd). cbn [snd].
    rewrite new_events_app.
    destruct (fst (client_put_object _ _ _ _ _ _)) as [r|e]; [reflexivity|].
    simpl. intros Hnot. specialize (Hnot e).
    unfold wrap. rewrite Hnot; [reflexivity|]. now apply list_elem_of_singleton.
  - unfold upload_metadata.
    now rewrite !(upload_json_unserializable g _ _ _ _ Hd).
Qed.

(** C10, where it fails: when [put_object] raises a [MinioException],
    [upload_metadata] raises [FileUploadException] with two spaces between
    the object name and [file], not the message of
    [upload_hyperparameters] with the name replaced. *)
Theorem upload_metadata_message_differs (record : PyValue) (body : bytes)
    (w : World S) (e : PyExc) (s' : S) :
  orjson.dumps record orjson.OPT_INDENT_2 = Some body ->
  client_put_object (_bucket_name g)
    (format_value (_custom_files_folder g) +:+ "/model_metadata.json")
    (io_BytesIO body) (length body) "application/json" (client w) =
    (Raise e, s') ->
  isinstance_MinioException e = true ->
  outcome (upload_metadata g record) w =
    Raise (FileUploadException
             (Some "Error uploading model_metadata.json  file to S3 bucket") None) /\
  outcome (upload_hyperparameters_renamed g "model_metadata.json" record) w =
    Raise (FileUploadException
             (Some "Error uploading model_metadata.json file to S3 bucket") None) /\
  outcome (upload_metadata g record) w <>
  outcome (upload_hyperparameters_renamed g "model_metadata.json" record) w.
Proof.
  intros Hd Hput Hm.
  unfold outcome, upload_metadata, upload_hyperparameters_renamed.
  rewrite !(upload_json_eq g _ _ _ _ _ Hd). cbn [fst].
  change (format_value (_custom_files_folder g) +:+ "/" +:+ "model_metadata.json")
    with (format_value (_custom_files_folder g) +:+ "/model_metadata.json").
  rewrite Hput. cbn [fst]. unfold wrap. rewrite Hm.
  repeat split. discriminate.
Qed.
End Renaming.

(** ** [orjson]: what [dumps] writes, [loads] reads back *)

Module orjson_facts.
Import orjson.

(** *** White space *)





(** *** Strings *)




(** *** Integers *)














(** *** Floats *)









(** *** What [dumps] accepts *)





(** *** Containers *)














(** *** Dictionaries *)



(** *** Values *)











(** *** The round trip *)


End orjson_facts.

(** ** The two JSON uploads *)


(** * The module at work on concrete clients *)



Lemma check_if_object_exists_swallows_errors_witness :
  outcome (check_if_object_exists (import_module demo_world) "a.json") demo_world
    = Return true /\
  outcome (check_if_object_exists (import_module demo_world) "zz.json") demo_world
    = Return false /\
  outcome (check_if_object_exists (import_module outage_world) "a.json") outage_world
    = Return false /\
  outcome (check_if_object_exists (import_module unconfigured_world) "a.json")
    unconfigured_world = Return false /\
  outcome (check_if_object_exists (import_module interrupted_world) "a.json")
    interrupted_world = Raise (BaseExceptionOnly "KeyboardInterrupt" "").
Proof.
  split; [|split; [|split; [|split]]].
  - apply (check_if_object_exists_swallows_errors
             (import_module demo_world) "a.json" demo_world).
    eexists. reflexivity.
  - apply (proj1 (proj2 (proj2 (check_if_object_exists_swallows_errors
             (import_module demo_world) "zz.json" demo_world)))
             (MinioException "S3Error" "NoSuchKey")); reflexivity.
  - apply (proj1 (proj2 (proj2 (check_if_object_exists_swallows_errors
             (import_module outage_world) "a.json" outage_world)))
             (MinioException "ServerError" "503")); reflexivity.
  - apply (proj1 (proj2 (proj2 (check_if_object_exists_swallows_errors
             (import_module unconfigured_world) "a.json" unconfigured_world)))
             (OtherException "TypeError" "expected string or bytes-like object"));
      reflexivity.
  - apply (proj1 (proj2 (proj2 (proj2 (check_if_object_exists_swallows_errors
             (import_module interrupted_world) "a.json" interrupted_world))))
             (BaseExceptionOnly "KeyboardInterrupt" "")); reflexivity.
Defined.

(** Where "never raises" of C2 stops: a [KeyboardInterrupt] raised while
    [stat_object] runs leaves [check_if_object_exists], which returns
    nothing. *)
Lemma check_if_object_exists_lets_KeyboardInterrupt_through :
  outcome (check_if_object_exists (import_module interrupted_world) "a.json")
    interrupted_world = Raise (BaseExceptionOnly "KeyboardInterrupt" "") /\
  ~ (exists b : bool,
       outcome (check_if_object_exists (import_module interrupted_world) "a.json")
         interrupted_world = Return b).
Proof.
  split; [reflexivity|]. intros [b Hb]. discriminate Hb.
Qed.

Lemma client_errors_become_FileUploadException_witness :
  MinioException "S3Error" "NoSuchKey" ∈
    client_raised (run (import_module demo_world) (CopyObjectOp "zz.json" "b.json"))
      demo_world /\
  outcome (run (import_module demo_world) (CopyObjectOp "zz.json" "b.json"))
    demo_world =
    Raise (FileUploadException (Some "Error copying zz.json to b.json") None) /\
  OtherException "FileNotFoundError" "/tmp/none" ∈
    client_raised (run (import_module demo_world) (UploadLocalData "/tmp/none" "m.tar"))
      demo_world /\
  outcome (run (import_module demo_world) (UploadLocalData "/tmp/none" "m.tar"))
    demo_world =
    Raise (FileUploadException None
             (Some (OtherException "FileNotFoundError" "/tmp/none"))) /\
  outcome (run (import_module interrupted_world) (RemoveObjectsFolder "run/"))
    interrupted_world = Raise (BaseExceptionOnly "KeyboardInterrupt" "").
Proof.
  assert (H1 : MinioException "S3Error" "NoSuchKey" ∈
    client_raised (run (import_module demo_world) (CopyObjectOp "zz.json" "b.json"))
      demo_world) by (vm_compute; apply list_elem_of_here).
  assert (H2 : OtherException "FileNotFoundError" "/tmp/none" ∈
    client_raised (run (import_module demo_world) (UploadLocalData "/tmp/none" "m.tar"))
      demo_world) by (vm_compute; apply list_elem_of_here).
  assert (H3 : BaseExceptionOnly "KeyboardInterrupt" "" ∈
    client_raised (run (import_module interrupted_world) (RemoveObjectsFolder "run/"))
      interrupted_world) by (vm_compute; apply list_elem_of_here).
  split; [exact H1|]. split; [|split; [exact H2|split]].
  - apply (client_errors_become_FileUploadException (import_module demo_world)
             (CopyObjectOp "zz.json" "b.json") demo_world _ eq_refl H1).
    reflexivity.
  - apply (proj1 (proj2 (client_errors_become_FileUploadException
             (import_module demo_world)
             (UploadLocalData "/tmp/none" "m.tar") demo_world _ eq_refl H2)));
      reflexivity.
  - apply (proj1 (proj2 (proj2 (client_errors_become_FileUploadException
             (import_module interrupted_world)
             (RemoveObjectsFolder "run/") interrupted_world _ eq_refl H3)))).
    reflexivity.
Defined.

(** Where "the raw error never propagates" of C3 stops: a
    [KeyboardInterrupt] raised by the client during [copy_object] comes
    out of it as it is, and is no [FileUploadException]. *)
Lemma client_KeyboardInterrupt_is_not_wrapped :
  BaseExceptionOnly "KeyboardInterrupt" "" ∈
    client_raised (run (import_module interrupted_world)
                     (CopyObjectOp "a.json" "b.json")) interrupted_world /\
  outcome (run (import_module interrupted_world) (CopyObjectOp "a.json" "b.json"))
    interrupted_world = Raise (BaseExceptionOnly "KeyboardInterrupt" "") /\
  isinstance_FileUploadException (BaseExceptionOnly "KeyboardInterrupt" "") = false.
Proof.
  split; [vm_compute; apply list_elem_of_here|]. split; reflexivity.
Qed.

Lemma remove_objects_folder_deletes_listing_witness :
  issued (remove_objects_folder (import_module empty_world) "run/") empty_world =
    [ListObjects (Some "models") "run/"; RemoveObjects (Some "models") []] /\
  outcome (remove_objects_folder (import_module empty_world) "run/") empty_world =
    Return true /\
  issued (remove_objects_folder (import_module demo_world) "run/") demo_world =
    [ListObjects (Some "models") "run/";
     RemoveObjects (Some "models")
       [mkDeleteObject "run/a.json"; mkDeleteObject "run/b.bin"]] /\
  outcome (remove_objects_folder (import_module demo_world) "run/") demo_world =
    Return true /\
  client (snd (remove_objects_folder (import_module demo_world) "run/" demo_world)) =
    set_objects demo_store (delete "run/a.json" (st_objects demo_store)) /\
  issued (remove_objects_folder (import_module deferring_world) "run/")
    deferring_world =
    [ListObjects (Some "models") "run/";
     RemoveObjects (Some "models") [mkDeleteObject "run/a.json"]] /\
  outcome (remove_objects_folder (import_module deferring_world) "run/")
    deferring_world = Return true /\
  client (snd (remove_objects_folder (import_module deferring_world) "run/"
                 deferring_world)) = deferring_script.
Proof.
  pose proof (remove_objects_folder_deletes_listing (import_module empty_world)
                "run/" empty_world [] (client empty_world) [] (client empty_world)
                eq_refl eq_refl) as (Hi0 & _ & Ho0 & _).
  pose proof (remove_objects_folder_deletes_listing (import_module demo_world)
                "run/" demo_world
                [mkObject "run/a.json" 2; mkObject "run/b.bin" 3] demo_store
                [mkDeleteError "AccessDenied" "run/b.bin"]
                (set_objects demo_store (delete "run/a.json" (st_objects demo_store)))
                eq_refl eq_refl) as (Hi & _ & Ho & Hs & _).
  pose proof (remove_objects_folder_deletes_listing (import_module deferring_world)
                "run/" deferring_world
                [mkObject "run/a.json" 2] deferring_script [] deferring_script
                eq_refl eq_refl) as (Hi1 & _ & Ho1 & Hs1 & _).
  repeat split; assumption.
Defined.

Lemma upload_reward_function_passes_buffer_witness :
  issued (upload_reward_function (import_module demo_world) reward_buffer) demo_world =
    [PutObject (Some "models") "custom/reward_function.py" reward_buffer 39
       "text/plain"] /\
  outcome (upload_reward_function (import_module demo_world) reward_buffer) demo_world =
    Return true /\
  st_objects (client (snd (upload_reward_function (import_module demo_world)
                             reward_buffer demo_world)))
    !! "custom/reward_function.py" = Some (getvalue reward_buffer) /\
  stream_read reward_buffer 39 = getvalue reward_buffer /\
  outcome (upload_reward_function (import_module silent_world) reward_buffer)
    silent_world = Return false /\
  issued (upload_reward_function (import_module demo_world) closed_buffer)
    demo_world = [].
Proof.
  pose proof (upload_reward_function_passes_buffer (import_module demo_world)
                reward_buffer demo_world)
    as (_ & Hi & Hret & Hread & _ & Hclosed & _).
  destruct (Hret (written (Some "models") "custom/reward_function.py")
              (set_objects demo_store
                 (<["custom/reward_function.py" := getvalue reward_buffer]>
                    (st_objects demo_store)))
              eq_refl) as (Ho & Hs).
  split; [exact Hi|]. split; [exact Ho|]. split; [rewrite Hs; reflexivity|].
  split; [exact (Hread eq_refl)|]. split; [|exact Hclosed].
  apply (proj1 (proj2 (proj2 (upload_reward_function_passes_buffer
                  (import_module silent_world) reward_buffer silent_world)))
           None silent_script).
  reflexivity.
Defined.

(** Where "without truncating" of C5 stops: of a buffer of six bytes
    that stands at position 3, the announced length is 6, a client that
    keeps what it reads keeps the last three bytes, and the function
    returns [True]. *)
Lemma upload_reward_function_truncates_unrewound_buffer :
  issued (upload_reward_function (import_module shelf_world) half_read_buffer)
    shelf_world =
    [PutObject (Some "models") "custom/reward_function.py" half_read_buffer 6
       "text/plain"] /\
  outcome (upload_reward_function (import_module shelf_world) half_read_buffer)
    shelf_world = Return true /\
  shelf_objects (client (snd (upload_reward_function (import_module shelf_world)
                                half_read_buffer shelf_world)))
    !! "custom/reward_function.py" = Some (bytes_of "def") /\
  getvalue half_read_buffer = bytes_of "abcdef" /\
  bytes_of "def" <> bytes_of "abcdef".
Proof.
  repeat split; try discriminate; vm_compute; reflexivity.
Qed.



Lemma configuration_read_at_import_witness :
  issued (upload_reward_function (import_module unconfigured_world) reward_buffer)
    demo_world =
    [PutObject None "None/reward_function.py" reward_buffer 39 "text/plain"] /\
  issued (upload_hyperparameters (import_module unconfigured_world) batch_size_record)
    demo_world =
    [PutObject None "None/hyperparameters.json" (io_BytesIO batch_size_body) 22
       "application/json"] /\
  issued (upload_metadata (import_module unconfigured_world) batch_size_record)
    demo_world =
    [PutObject None "None/model_metadata.json" (io_BytesIO batch_size_body) 22
       "application/json"] /\
  issued (upload_reward_function (import_module demo_world) reward_buffer)
    unconfigured_world =
    [PutObject (Some "models") "custom/reward_function.py" reward_buffer 39
       "text/plain"] /\
  issued (upload_hyperparameters (import_module demo_world) batch_size_record)
    unconfigured_world =
    [PutObject (Some "models") "custom/hyperparameters.json"
       (io_BytesIO batch_size_body) 22 "application/json"] /\
  issued (upload_metadata (import_module demo_world) batch_size_record)
    unconfigured_world =
    [PutObject (Some "models") "custom/model_metadata.json"
       (io_BytesIO batch_size_body) 22 "application/json"].
Proof.
  pose proof (configuration_read_at_import unconfigured_world demo_world
                (UploadRewardFunction reward_buffer)) as (_ & _ & _ & _ & Hnone).
  pose proof (configuration_read_at_import demo_world unconfigured_world
                (UploadRewardFunction reward_buffer)) as (_ & _ & _ & Hsome & _).
  destruct (Hnone eq_refl) as [Hreward Hjson].
  destruct (Hsome "custom" eq_refl) as [Hreward' Hjson'].
  split; [apply Hreward|].
  split; [apply (Hjson batch_size_record batch_size_body eq_refl)|].
  split; [apply (Hjson batch_size_record batch_size_body eq_refl)|].
  split; [apply Hreward'|].
  split; apply (Hjson' batch_size_record batch_size_body eq_refl).
Defined.

Lemma remove_objects_folder_drops_deletion_errors_witness :
  client_remove_objects (Some "models")
    [mkDeleteObject "run/a.json"; mkDeleteObject "run/b.bin"] demo_store =
    (Return [mkDeleteError "AccessDenied" "run/b.bin"],
     set_objects demo_store (delete "run/a.json" (st_objects demo_store))) /\
  outcome (remove_objects_folder (import_module demo_world) "run/") demo_world =
    Return true.
Proof.
  split; [reflexivity|].
  assert (Hne : [mkDeleteError "AccessDenied" "run/b.bin"] <> []) by discriminate.
  pose proof (remove_objects_folder_drops_deletion_errors (import_module demo_world)
                "run/" demo_world
                [mkObject "run/a.json" 2; mkObject "run/b.bin" 3] demo_store
                [mkDeleteError "AccessDenied" "run/b.bin"]
                (set_objects demo_store (delete "run/a.json" (st_objects demo_store)))
                eq_refl eq_refl Hne) as Hrun.
  unfold outcome. rewrite Hrun. reflexivity.
Defined.

Lemma upload_metadata_message_differs_witness :
  outcome (upload_metadata (import_module outage_world) batch_size_record)
    outage_world =
    Raise (FileUploadException
             (Some "Error uploading model_metadata.json  file to S3 bucket") None) /\
  outcome (upload_hyperparameters (import_module outage_world) batch_size_record)
    outage_world =
    Raise (FileUploadException
             (Some "Error uploading hyperparameters.json file to S3 bucket") None).
Proof.
  split; [|reflexivity].
  assert (Hput : client_put_object (_bucket_name (import_module outage_world))
            (format_value (_custom_files_folder (import_module outage_world)) +:+
             "/model_metadata.json")
            (io_BytesIO batch_size_body) (length batch_size_body)
            "application/json" (client outage_world) =
          (Raise (MinioException "ServerError" "503"), client outage_world))
    by reflexivity.
  apply (upload_metadata_message_differs (import_module outage_world)
           batch_size_record batch_size_body outage_world
           (MinioException "ServerError" "503") (client outage_world)
           eq_refl Hput eq_refl).
Defined.

(** * Further properties of the functions *)

Section Paths.
Context {S : Type} `{MinioClient S}.
Variable g : Globals.


(** X2: the two ways [remove_objects_folder] fails.  When [list_objects]
    raises, [remove_objects] is not called: the listing is the only call,
    and the client is left as the listing left it.  When the listing
    returns and [remove_objects] raises, both calls were made, the second
    with the batch built from the listing, and the client is left as the
    failed delete left it.  Either way the error comes out through the two
    [except] clauses, with the text [Error deleting {object_name} folder]
    for a [MinioException]. *)
Theorem remove_objects_folder_failure_paths (object_name : string) (w : World S) :
  let bucket := _bucket_name g in
  let folder := remove_objects_folder g object_name in
  let message := "Error deleting " +:+ object_name +:+ " folder" in
  let listing := client_list_objects bucket object_name (client w) in
  (forall e, fst listing = Raise e ->
     issued folder w = [ListObjects bucket object_name] /\
     outcome folder w = Raise (wrap message e) /\
     client (snd (folder w)) = snd listing) /\
  (forall objects e,
     fst listing = Return objects ->
     let batch := map mkDeleteObject (map obj_object_name objects) in
     let removal := client_remove_objects bucket batch (snd listing) in
     fst removal = Raise e ->
     issued folder w = [ListObjects bucket object_name; RemoveObjects bucket batch] /\
     outcome folder w = Raise (wrap message e) /\
     client (snd (folder w)) = snd removal).
Proof.
  intros bucket folder message listing.
  unfold folder, issued, outcome. rewrite remove_objects_folder_eq.
  fold bucket listing. split.
  - intros e He. rewrite He. cbn [fst snd]. rewrite new_events_app. auto.
  - intros objects e Hl Hr. rewrite Hl. cbn zeta.
    rewrite Hr. cbn [fst snd]. rewrite new_events_app. auto.
Qed.

(** X3: [copy_object] and [remove_objects_folder] have no [False] result:
    whatever the client does, what they return is [True] (they return
    [True] or raise). *)
Theorem copy_and_remove_never_return_False
    (source_object_name dest_object_name object_name : string)
    (w : World S) (b : bool) :
  (outcome (copy_object g source_object_name dest_object_name) w = Return b ->
   b = true) /\
  (outcome (remove_objects_folder g object_name) w = Return b -> b = true).
Proof.
  unfold outcome. rewrite copy_object_eq, remove_objects_folder_eq. split.
  - cbn [fst]. destruct (fst (client_copy_object _ _ _ _)); congruence.
  - destruct (fst (client_list_objects _ _ _)) as [objects|e]; cbn [fst].
    + destruct (fst (client_remove_objects _ _ _)); congruence.
    + congruence.
Qed.

(** X4: [upload_reward_function] passes as [length] the size of the whole
    buffer and the buffer where it stands, without rewinding it.  For a
    buffer that holds data and whose position is not 0, the bytes left to
    read are fewer than the [length] passed. *)
Theorem upload_reward_function_does_not_rewind (buffer : BytesIO) (w : World S) :
  0 < tell buffer ->
  getvalue buffer <> [] ->
  exists size,
    issued (upload_reward_function g buffer) w =
      [PutObject (_bucket_name g)
         (format_value (_custom_files_folder g) +:+ "/reward_function.py")
         buffer size "text/plain"] /\
    size = length (getvalue buffer) /\
    remaining buffer < size.
Proof.
  intros Hpos Hdata. exists (length (getvalue buffer)).
  unfold issued. rewrite upload_reward_function_eq. cbn [snd].
  rewrite new_events_app. split; [reflexivity|]. split; [reflexivity|].
  unfold remaining. rewrite length_drop.
  destruct (getvalue buffer); [congruence|]. simpl length. lia.
Qed.

(** X5: the three fixed artifacts never share a key.  Whatever the prefix
    (set or not), the keys of the calls [upload_hyperparameters],
    [upload_metadata] and [upload_reward_function] make are pairwise
    different, so none of the three uploads writes over another. *)
Theorem fixed_keys_are_distinct (record : PyValue) (body : bytes)
    (buffer : BytesIO) (w1 w2 w3 : World S) :
  orjson.dumps record orjson.OPT_INDENT_2 = Some body ->
  NoDup (omap call_key
           (issued (upload_hyperparameters g record) w1 ++
            issued (upload_metadata g record) w2 ++
            issued (upload_reward_function g buffer) w3)%list).
Proof.
  intros Hd.
  rewrite (issued_upload_hyperparameters _ _ _ _ Hd),
    (issued_upload_metadata _ _ _ _ Hd), issued_upload_reward_function.
  cbn [app omap call_key list_omap].
  set (prefix := format_value (_custom_files_folder g)).
  assert (Hne : forall a b : string, a <> b -> prefix +:+ a <> prefix +:+ b).
  { intros a b Hab Heq. apply Hab. exact (inj (String.app prefix) a b Heq). }
  repeat apply NoDup_cons_2; try apply NoDup_nil_2;
    rewrite ?not_elem_of_cons; repeat split;
    try apply not_elem_of_nil; apply Hne; discriminate.
Qed.

(** X6: no function calls the client again after a call has answered, be it
    by a result or by an exception: a run makes at most one call (two for
    [remove_objects_folder], the listing then the delete), and no call
    twice. *)
Theorem no_call_is_repeated (op : Operation) (w : World S) :
  length (issued (run g op) w) <= calls_in_body op /\
  NoDup (issued (run g op) w).
Proof.
  assert (Hone : forall c : Call, length [c] <= 1 /\ NoDup [c]).
  { intros c. split; [simpl; lia|]. apply NoDup_singleton. }
  assert (Hnil : forall n, length (@nil Call) <= n /\ NoDup (@nil Call)).
  { intros n. split; [simpl; lia|]. apply NoDup_nil_2. }
  destruct op; cbn [run calls_in_body].
  - destruct (orjson.dumps hyperparameters orjson.OPT_INDENT_2) as [body|] eqn:Hd.
    + rewrite (issued_upload_hyperparameters _ _ _ _ Hd). apply Hone.
    + rewrite (proj1 (issued_upload_unserializable g _ w Hd)). apply Hnil.
  - destruct reward_function_buffer as [stream|].
    + rewrite issued_upload_reward_function. apply Hone.
    + rewrite issued_upload_reward_function_closed. apply Hnil.
  - destruct (orjson.dumps model_metadata orjson.OPT_INDENT_2) as [body|] eqn:Hd.
    + rewrite (issued_upload_metadata _ _ _ _ Hd). apply Hone.
    + rewrite (proj2 (issued_upload_unserializable g _ w Hd)). apply Hnil.
  - erewrite issued_one_call by apply upload_local_data_eq. apply Hone.
  - erewrite issued_one_call by apply check_if_object_exists_eq. apply Hone.
  - erewrite issued_one_call by apply copy_object_eq. apply Hone.
  - unfold issued. rewrite remove_objects_folder_eq.
    destruct (fst (client_list_objects _ _ _)) as [objects|e]; cbn [snd];
      rewrite new_events_app; simpl.
    + split; [lia|]. apply NoDup_cons_2; [|apply NoDup_singleton].
      intros Hin%list_elem_of_singleton. discriminate Hin.
    + split; [lia|]. apply NoDup_singleton.
Qed.

(** Where what a function raises comes from: it is what the clauses make
    of an exception of the [try] body, which the client raised unless the
    clauses wrapped it as a plain [Exception]. *)
Lemma raise_cause (op : Operation) (w : World S) (x : PyExc) :
  outcome (run g op) w = Raise x ->
  (reraises op = true /\
   exists e, x = wrap (failure_message op) e /\
     (isinstance_MinioException e = true \/ isinstance_Exception e = false ->
      e ∈ client_raised (run g op) w)) \/
  (reraises op = false /\ isinstance_Exception x = false /\
   x ∈ client_raised (run g op) w).
Proof.
  assert (Hone : forall (A : Type) (m : M S bool) (message : string)
                   (o : Outcome A) (post : A -> bool) (s : S) (c : Call),
    m w = (match o with
           | Return a => Return (post a)
           | Raise e => Raise (wrap message e)
           end,
           mkWorld s (environ w) (events w ++ [mkEvent c (raised o)])) ->
    outcome m w = Raise x ->
    exists e, x = wrap message e /\
      (isinstance_MinioException e = true \/ isinstance_Exception e = false ->
       e ∈ client_raised m w)).
  { intros A m message o post s c Hm. unfold outcome, client_raised.
    rewrite Hm. cbn [fst snd]. rewrite new_events_app.
    destruct o as [a|e]; [discriminate|]. intros [= <-].
    exists e. split; [reflexivity|]. intros _. simpl.
    now apply list_elem_of_singleton. }
  assert (Hjson : forall (object_name message : string) (record : PyValue),
    let m := try_except
       (serialized ← dumps record orjson.OPT_INDENT_2;
        result ← put_object (_bucket_name g)
                   (format_value (_custom_files_folder g) +:+ "/" +:+ object_name)
                   (io_BytesIO serialized) (length serialized) "application/json";
        mret (if truth result then true else false))
       (except_MinioException_Exception
          (raise (FileUploadException (Some message) None))
          (fun e => raise (FileUploadException None (Some e)))) in
    outcome m w = Raise x ->
    exists e, x = wrap message e /\
      (isinstance_MinioException e = true \/ isinstance_Exception e = false ->
       e ∈ client_raised m w)).
  { intros object_name message record m.
    destruct (orjson.dumps record orjson.OPT_INDENT_2) as [body|] eqn:Hd.
    - eapply (Hone _ m message _ (fun r => bool_decide (is_Some r))).
      apply (upload_json_eq g _ _ _ _ _ Hd).
    - unfold outcome, m. rewrite (upload_json_unserializable g _ _ _ _ Hd).
      cbn [fst]. intros [= <-].
      exists (OtherException "TypeError" (orjson.error_text record)).
      split; [reflexivity|]. intros [Hm|Hb]; discriminate. }
  destruct op; cbn [run reraises failure_message]; intros Hx.
  - left. split; [reflexivity|]. now apply (Hjson "hyperparameters.json").
  - left. split; [reflexivity|]. destruct reward_function_buffer as [stream|].
    + eapply (Hone _ _ _ _ (fun r => bool_decide (is_Some r))); [|exact Hx].
      apply upload_reward_function_eq.
    + revert Hx. unfold outcome. rewrite upload_reward_function_closed.
      cbn [fst]. intros [= <-].
      exists (OtherException "ValueError" "I/O operation on closed file.").
      split; [reflexivity|]. intros [Hm|Hb]; discriminate.
  - left. split; [reflexivity|]. now apply (Hjson "model_metadata.json").
  - left. split; [reflexivity|].
    eapply (Hone _ _ _ _ (fun r => bool_decide (is_Some r))); [|exact Hx].
    apply upload_local_data_eq.
  - right. split; [reflexivity|]. revert Hx. unfold outcome, client_raised.
    rewrite check_if_object_exists_eq. cbn [fst snd]. rewrite new_events_app.
    destruct (fst (client_stat_object _ _ _)) as [o|e]; [discriminate|].
    destruct (isinstance_Exception e) eqn:He; [discriminate|].
    intros [= <-]. split; [exact He|]. simpl. now apply list_elem_of_singleton.
  - left. split; [reflexivity|].
    eapply (Hone _ _ _ _ (fun _ => true)); [|exact Hx]. apply copy_object_eq.
  - left. split; [reflexivity|]. revert Hx. unfold outcome, client_raised.
    rewrite remove_objects_folder_eq.
    destruct (fst (client_list_objects _ _ _)) as [objects|e]; cbn [fst snd];
      rewrite new_events_app.
    + destruct (fst (client_remove_objects _ _ _)) as [errors|e];
        [discriminate|].
      intros [= <-]. exists e. split; [reflexivity|]. intros _. simpl.
      now apply list_elem_of_singleton.
    + intros [= <-]. exists e. split; [reflexivity|]. intros _. simpl.
      now apply list_elem_of_singleton.
Qed.

(** X7: what an exception that leaves one of the functions tells about
    its cause.  It is one of three: a [FileUploadException] with the
    function's message and no original exception, and then the client
    raised a [MinioException] during the run; a [FileUploadException]
    with no message and an original exception that is an [Exception] and
    not a [MinioException]; or an exception that is not an [Exception]
    ([KeyboardInterrupt], [SystemExit]), which the client raised during
    the run and no clause caught.  [check_if_object_exists] raises only
    the third. *)
Theorem FileUploadException_tells_the_cause (op : Operation) (w : World S)
    (x : PyExc) :
  outcome (run g op) w = Raise x ->
  (reraises op = true /\
   x = FileUploadException (Some (failure_message op)) None /\
   exists e, e ∈ client_raised (run g op) w /\
     isinstance_MinioException e = true) \/
  (reraises op = true /\
   exists e, x = FileUploadException None (Some e) /\
     isinstance_Exception e = true /\ isinstance_MinioException e = false) \/
  (isinstance_Exception x = false /\ x ∈ client_raised (run g op) w).
Proof.
  intros Hx. destruct (raise_cause op w x Hx) as [[Hop [e [-> Hin]]]|[_ Hthird]].
  - unfold wrap. destruct (isinstance_MinioException e) eqn:Hm.
    + left. split; [exact Hop|]. split; [reflexivity|]. exists e. auto.
    + destruct (isinstance_Exception e) eqn:He.
      * right. left. split; [exact Hop|]. exists e. auto.
      * right. right. split; [exact He|]. apply Hin. now right.
  - right. right. exact Hthird.
Qed.

(** X8: [upload_metadata] has the effect of [upload_hyperparameters] with
    the object name replaced.  The final world (the calls made, with their
    arguments, and the state of the client) is the same in every run, and
    so is the outcome in every run in which the client raises no
    [MinioException]. *)
Theorem upload_metadata_same_effect (record : PyValue) (w : World S) :
  let renamed := upload_hyperparameters_renamed g "model_metadata.json" record in
  snd (upload_metadata g record w) = snd (renamed w) /\
  ((forall e, e ∈ client_raised (upload_metadata g record) w ->
      isinstance_MinioException e = false) ->
   outcome (upload_metadata g record) w = outcome renamed w).
Proof.
  intros renamed. split.
  - unfold renamed, upload_hyperparameters_renamed, upload_metadata.
    destruct (orjson.dumps record orjson.OPT_INDENT_2) as [body|] eqn:Hd.
    + now rewrite !(upload_json_eq g _ _ _ _ _ Hd).
    + now rewrite !(upload_json_unserializable g _ _ _ _ Hd).
  - intros Hnot. unfold outcome, renamed.
    now rewrite (upload_metadata_agrees_unless_MinioException g record w Hnot).
Qed.
(** X9: [True] is only returned when the whole body ran: every client
    call of the function was made (one; two for [remove_objects_folder])
    and none of them raised. *)
Theorem True_means_every_call_returned (op : Operation) (w : World S) :
  outcome (run g op) w = Return true ->
  client_raised (run g op) w = [] /\
  length (issued (run g op) w) = calls_in_body op.
Proof.
  assert (Hone : forall (A : Type) (m : M S bool) (message : string)
                   (o : Outcome A) (post : A -> bool) (s : S) (c : Call),
    m w = (match o with
           | Return a => Return (post a)
           | Raise e => Raise (wrap message e)
           end,
           mkWorld s (environ w) (events w ++ [mkEvent c (raised o)])) ->
    outcome m w = Return true ->
    client_raised m w = [] /\ length (issued m w) = 1).
  { intros A m message o post s c Hm. unfold outcome, client_raised, issued.
    rewrite Hm. cbn [fst snd]. rewrite new_events_app.
    destruct o as [a|e]; [|discriminate]. intros _. split; reflexivity. }
  assert (Hjson : forall (object_name message : string) (record : PyValue),
    let m := try_except
       (serialized ← dumps record orjson.OPT_INDENT_2;
        result ← put_object (_bucket_name g)
                   (format_value (_custom_files_folder g) +:+ "/" +:+ object_name)
                   (io_BytesIO serialized) (length serialized) "application/json";
        mret (if truth result then true else false))
       (except_MinioException_Exception
          (raise (FileUploadException (Some message) None))
          (fun e => raise (FileUploadException None (Some e)))) in
    outcome m w = Return true ->
    client_raised m w = [] /\ length (issued m w) = 1).
  { intros object_name message record m.
    destruct (orjson.dumps record orjson.OPT_INDENT_2) as [body|] eqn:Hd.
    - eapply (Hone _ m message _ (fun r => bool_decide (is_Some r))).
      apply (upload_json_eq g _ _ _ _ _ Hd).
    - unfold outcome, m. rewrite (upload_json_unserializable g _ _ _ _ Hd).
      discriminate. }
  destruct op; cbn [run calls_in_body]; intros Hx.
  - now apply (Hjson "hyperparameters.json").
  - destruct reward_function_buffer as [stream|].
    + eapply (Hone _ _ _ _ (fun r => bool_decide (is_Some r))); [|exact Hx].
      apply upload_reward_function_eq.
    + revert Hx. unfold outcome. rewrite upload_reward_function_closed.
      discriminate.
  - now apply (Hjson "model_metadata.json").
  - eapply (Hone _ _ _ _ (fun r => bool_decide (is_Some r))); [|exact Hx].
    apply upload_local_data_eq.
  - revert Hx. unfold outcome, client_raised, issued.
    rewrite check_if_object_exists_eq. cbn [fst snd]. rewrite new_events_app.
    destruct (fst (client_stat_object _ _ _)) as [o|e];
      [|destruct (isinstance_Exception e); discriminate].
    intros _. split; reflexivity.
  - eapply (Hone _ _ _ _ (fun _ => true)); [|exact Hx]. apply copy_object_eq.
  - revert Hx. unfold outcome, client_raised, issued.
    rewrite remove_objects_folder_eq.
    destruct (fst (client_list_objects _ _ _)) as [objects|e]; cbn [fst snd];
      [|discriminate].
    rewrite new_events_app.
    destruct (fst (client_remove_objects _ _ _)) as [errors|e];
      [|discriminate].
    intros _. split; reflexivity.
Qed.
End Paths.

(** X10: of the environment, only [BUCKET_NAME] and
    [CUSTOM_FILES_FOLDER_PATH] as they were at import matter.  Two imports
    under environments that agree on these two give functions that behave
    alike in every run: same outcome, same calls, same final state.
    [REWARD_FUNCTION_PATH], which the module also reads, and every other
    variable have no influence. *)
Theorem only_bucket_and_prefix_matter {S : Type} `{MinioClient S}
    (w0 w0' w : World S) (op : Operation) :
  environ w0 !! "BUCKET_NAME" = environ w0' !! "BUCKET_NAME" ->
  environ w0 !! "CUSTOM_FILES_FOLDER_PATH" =
    environ w0' !! "CUSTOM_FILES_FOLDER_PATH" ->
  run (import_module w0) op w = run (import_module w0') op w.
Proof.
  intros Hbucket Hprefix.
  destruct op; unfold run, upload_hyperparameters, upload_reward_function,
    upload_metadata, upload_local_data, check_if_object_exists, copy_object,
    remove_objects_folder, import_module, os_getenv;
    cbn [_bucket_name _custom_files_folder];
    rewrite ?Hbucket, ?Hprefix; reflexivity.
Qed.

(** * The further properties on concrete clients *)


(** A listing that fails during an outage, and a batch delete that is
    refused after the listing returned one object. *)
Lemma remove_objects_folder_failure_paths_witness :
  (issued (remove_objects_folder (import_module outage_world) "run/") outage_world =
     [ListObjects (Some "models") "run/"] /\
   outcome (remove_objects_folder (import_module outage_world) "run/") outage_world =
     Raise (FileUploadException (Some "Error deleting run/ folder") None)) /\
  (issued (remove_objects_folder (import_module failing_delete_world) "run/")
     failing_delete_world =
     [ListObjects (Some "models") "run/";
      RemoveObjects (Some "models") [mkDeleteObject "run/a.json"]] /\
   outcome (remove_objects_folder (import_module failing_delete_world) "run/")
     failing_delete_world =
     Raise (FileUploadException (Some "Error deleting run/ folder") None)).
Proof.
  pose proof (proj1 (remove_objects_folder_failure_paths
                       (import_module outage_world) "run/" outage_world)
                (MinioException "ServerError" "503") eq_refl) as Hlist.
  pose proof (proj2 (remove_objects_folder_failure_paths
                       (import_module failing_delete_world) "run/"
                       failing_delete_world)
                [mkObject "run/a.json" 2]
                (MinioException "S3Error" "AccessDenied") eq_refl eq_refl)
    as Hdelete.
  split.
  - split; [exact (proj1 Hlist) | exact (proj1 (proj2 Hlist))].
  - split; [exact (proj1 Hdelete) | exact (proj1 (proj2 Hdelete))].
Defined.

(** A copy during an outage: the message tells that the client raised a
    [MinioException].  A probe that is interrupted: what comes out is the
    client's [KeyboardInterrupt]. *)
Lemma FileUploadException_tells_the_cause_witness :
  outcome (run (import_module outage_world) (CopyObjectOp "a.json" "b.json"))
    outage_world =
    Raise (FileUploadException (Some "Error copying a.json to b.json") None) /\
  (exists e, e ∈ client_raised (run (import_module outage_world)
                                  (CopyObjectOp "a.json" "b.json")) outage_world /\
     isinstance_MinioException e = true) /\
  outcome (run (import_module interrupted_world) (CheckIfObjectExists "a.json"))
    interrupted_world = Raise (BaseExceptionOnly "KeyboardInterrupt" "") /\
  BaseExceptionOnly "KeyboardInterrupt" "" ∈
    client_raised (run (import_module interrupted_world)
                     (CheckIfObjectExists "a.json")) interrupted_world.
Proof.
  assert (Hx : outcome (run (import_module outage_world)
                          (CopyObjectOp "a.json" "b.json")) outage_world =
    Raise (FileUploadException (Some "Error copying a.json to b.json") None))
    by reflexivity.
  assert (Hy : outcome (run (import_module interrupted_world)
                          (CheckIfObjectExists "a.json")) interrupted_world =
    Raise (BaseExceptionOnly "KeyboardInterrupt" "")) by reflexivity.
  split; [exact Hx|]. split; [|split; [exact Hy|]].
  - destruct (FileUploadException_tells_the_cause (import_module outage_world)
                (CopyObjectOp "a.json" "b.json") outage_world _ Hx)
      as [(_ & _ & He)|[(_ & e & Hwrapped & _)|(Hb & _)]].
    + exact He.
    + discriminate Hwrapped.
    + discriminate Hb.
  - destruct (FileUploadException_tells_the_cause (import_module interrupted_world)
                (CheckIfObjectExists "a.json") interrupted_world _ Hy)
      as [(Hop & _)|[(Hop & _)|(_ & Hin)]].
    + discriminate Hop.
    + discriminate Hop.
    + exact Hin.
Defined.

(** Two processes, one of them with [REWARD_FUNCTION_PATH] and [HOME] set:
    the upload is the same. *)
Lemma only_bucket_and_prefix_matter_witness :
  environ demo_world !! "REWARD_FUNCTION_PATH" <>
    environ other_environment_world !! "REWARD_FUNCTION_PATH" /\
  run (import_module demo_world) (UploadHyperparameters batch_size_record)
    demo_world =
  run (import_module other_environment_world)
    (UploadHyperparameters batch_size_record) demo_world.
Proof.
  split; [vm_compute; discriminate|].
  apply (only_bucket_and_prefix_matter demo_world other_environment_world
           demo_world (UploadHyperparameters batch_size_record));
    vm_compute; reflexivity.
Defined.

(** The three keys under the prefix [custom]. *)
Lemma fixed_keys_are_distinct_witness :
  NoDup ["custom/hyperparameters.json"; "custom/model_metadata.json";
         "custom/reward_function.py"].
Proof.
  assert (Hd : orjson.dumps batch_size_record orjson.OPT_INDENT_2 =
               Some batch_size_body) by reflexivity.
  exact (fixed_keys_are_distinct (import_module demo_world) batch_size_record
           batch_size_body reward_buffer demo_world demo_world demo_world Hd).
Defined.

(** A buffer that was written to and not rewound: nothing is left to read,
    39 bytes are announced, and the store's [put_object] fails for want of
    data. *)
Lemma upload_reward_function_does_not_rewind_witness :
  let g := import_module demo_world in
  (exists size,
     issued (upload_reward_function g written_buffer) demo_world =
       [PutObject (Some "models") "custom/reward_function.py" written_buffer
          size "text/plain"] /\
     size = 39 /\ remaining written_buffer < size) /\
  remaining written_buffer = 0 /\
  outcome (upload_reward_function g written_buffer) demo_world =
    Raise (FileUploadException None
             (Some (OtherException "OSError" "stream having not enough data"))).
Proof.
  intros g. split; [|split; reflexivity].
  apply (upload_reward_function_does_not_rewind g written_buffer demo_world).
  - vm_compute. lia.
  - vm_compute. discriminate.
Defined.

(** With no bucket configured the store raises [TypeError], not a
    [MinioException]: the two functions raise the same. *)
Lemma upload_metadata_same_effect_witness :
  let g := import_module unconfigured_world in
  outcome (upload_metadata g batch_size_record) unconfigured_world =
    outcome (upload_hyperparameters_renamed g "model_metadata.json"
               batch_size_record) unconfigured_world /\
  outcome (upload_metadata g batch_size_record) unconfigured_world =
    Raise (FileUploadException None
             (Some (OtherException "TypeError"
                      "expected string or bytes-like object"))).
Proof.
  intros g. split; [|reflexivity].
  apply (proj2 (upload_metadata_same_effect g batch_size_record unconfigured_world)).
  assert (Hr : client_raised (upload_metadata g batch_size_record)
                 unconfigured_world =
               [OtherException "TypeError" "expected string or bytes-like object"])
    by reflexivity.
  rewrite Hr. intros e He. apply list_elem_of_singleton in He.
  rewrite He. reflexivity.
Defined.

(** A copy that succeeds. *)
Lemma True_means_every_call_returned_witness :
  let g := import_module demo_world in
  let op := CopyObjectOp "a.json" "b.json" in
  outcome (run g op) demo_world = Return true /\
  client_raised (run g op) demo_world = [] /\
  length (issued (run g op) demo_world) = 1.
Proof.
  intros g op.
  assert (Hx : outcome (run g op) demo_world = Return true) by reflexivity.
  split; [exact Hx|].
  exact (True_means_every_call_returned g op demo_world Hx).
Defined.
